(** * User controllers of Proyecto-22: a shallow embedding

    The module [src/controllers/user-controllers.js] exports six Express
    handlers over a [users] table (list, create, login, get self, delete,
    update) and keeps one private middleware, [authenticateToken].

    JavaScript values are embedded as the inductive [value]; a handler is a
    function from the request to a computation in the monad [M], which
    threads the process state ([world]: the table behind the pool, the
    clock, the entropy the hasher draws from, what was written on the
    error console) and carries the exception a rejected promise holds.
    The store is PostgreSQL behind the pool of [../db.js]: an integer
    [id_users] column fed by a sequence and three text columns. *)

From Stdlib Require Import ZArith List String Ascii Bool Lia.
From Stdlib Require Import Strings.Byte DecimalString.
From Stdlib Require DecimalPos DecimalZ.
Import ListNotations.
Local Open Scope string_scope.
Local Open Scope Z_scope.

Set Warnings "-register-all".

(** ** JavaScript values *)

Inductive value : Type :=
| VUndefined
| VNull
| VBool (b : bool)
| VNum (n : Z)
| VStr (s : string)
| VObj (fields : list (string * value))
| VArr (items : list value).

(** An object is its list of own properties, in insertion order. *)
Definition obj : Type := list (string * value).

(** [o[k]]: the first property named [k], [undefined] when there is none. *)
Fixpoint get (k : string) (o : obj) : value :=
  match o with
  | [] => VUndefined
  | (k', v) :: o' => if String.eqb k k' then v else get k o'
  end.

Definition has_own (k : string) (o : obj) : bool :=
  existsb (fun kv => String.eqb k (fst kv)) o.

(** [delete o[k]]. *)
Definition delete (k : string) (o : obj) : obj :=
  filter (fun kv => negb (String.eqb k (fst kv))) o.

(** [{...o, k: v}]: overwrite in place when [k] is there, append otherwise. *)
Fixpoint set (k : string) (v : value) (o : obj) : obj :=
  match o with
  | [] => [(k, v)]
  | (k', v') :: o' =>
      if String.eqb k k' then (k', v) :: o' else (k', v') :: set k v o'
  end.

(** ToBoolean, as [!x] and [if (x)] apply it. *)
Definition truthy (v : value) : bool :=
  match v with
  | VUndefined | VNull => false
  | VBool b => b
  | VNum n => negb (n =? 0)
  | VStr s => negb (String.eqb s "")
  | VObj _ | VArr _ => true
  end.

(** Decimal digits of an integer, as a template literal prints a number. *)
Definition decimal (n : Z) : string := NilZero.string_of_int (Z.to_int n).
Arguments decimal : simpl never.

(** ToString, as the template literal [`${v}`] applies it. *)
Fixpoint to_string (v : value) : string :=
  match v with
  | VUndefined => "undefined"
  | VNull => "null"
  | VBool true => "true"
  | VBool false => "false"
  | VNum n => decimal n
  | VStr s => s
  | VObj _ => "[object Object]"
  | VArr items =>
      let elt x := match x with
                   | VUndefined | VNull => ""
                   | _ => to_string x
                   end in
      (fix join (l : list value) : string :=
         match l with
         | [] => ""
         | [x] => elt x
         | x :: r => elt x ++ "," ++ join r
         end) items
  end.

(** [v == null]. *)
Definition nullish (v : value) : bool :=
  match v with VUndefined | VNull => true | _ => false end.

(** [v[k]] for a value that is neither undefined nor null: of the
    properties read in this module only objects carry any. *)
Definition prop (v : value) (k : string) : value :=
  match v with
  | VObj o => get k o
  | _ => VUndefined
  end.

(** ** Exceptions *)

(** The errors the token library signals (jose's error classes). *)
Inductive jose_error : Type :=
| JWSInvalid
| JWSSignatureVerificationFailed
| JWTExpired.

Inductive exn : Type :=
| TypeError (msg : string)
| StoreError
| BcryptError (msg : string)
| JoseError (e : jose_error).

(** ** The process state *)

(** A row of the [users] table: an integer identifier and three text
    columns, [None] for NULL. *)
Record user_row : Type := mkRow {
  col_id_users : Z;
  col_name : option string;
  col_email : option string;
  col_password : option string
}.

Record world : Type := mkWorld {
  rows : list user_row;       (* the users table *)
  next_id : Z;                (* the sequence behind id_users *)
  db_down : bool;             (* the store rejects every statement *)
  now : Z;                    (* the clock, in seconds since the epoch *)
  entropy : N;                (* what the next salt is drawn from *)
  console : list exn          (* what console.error printed, latest first *)
}.

(** ** The monad of handlers *)

Definition M (A : Type) : Type := world -> (exn + A) * world.

Definition ret {A} (a : A) : M A := fun w => (inr a, w).

Definition throw {A} (e : exn) : M A := fun w => (inl e, w).

Definition bind {A B} (m : M A) (k : A -> M B) : M B :=
  fun w => match m w with
           | (inr a, w') => k a w'
           | (inl e, w') => (inl e, w')
           end.

(** [try { m } catch (err) { h err }] *)
Definition try_catch {A} (m : M A) (h : exn -> M A) : M A :=
  fun w => match m w with
           | (inr a, w') => (inr a, w')
           | (inl e, w') => h e w'
           end.

Definition lift {A} (r : exn + A) : M A :=
  match r with inl e => throw e | inr a => ret a end.

Declare Scope js_scope.
Delimit Scope js_scope with js.
Notation "x <- m ;; k" := (bind m (fun x => k))
  (at level 100, m at next level, right associativity) : js_scope.
Notation "m ;; k" := (bind m (fun _ => k))
  (at level 100, right associativity) : js_scope.
Notation "'try' m 'catch' h" := (try_catch m h)
  (at level 100, m at next level, h at next level) : js_scope.
Local Open Scope js_scope.

(** [console.error(err)] *)
Definition console_error (e : exn) : M unit :=
  fun w => (inr tt, mkWorld (rows w) (next_id w) (db_down w) (now w)
                            (entropy w) (e :: console w)).

(** [new Date()], in seconds. *)
Definition clock : M Z := fun w => (inr (now w), w).

(** ** Requests and responses *)

(** The request as the handlers read it: [req.headers] and [req.params]
    are objects; [req.body] is what the body parser left, an object or,
    when nothing was parsed, [undefined]; [req.user] is whatever an
    earlier middleware attached. *)
Record request : Type := mkReq {
  headers : obj;
  params : obj;
  body : value;
  user : value       (* req.user: undefined until a middleware sets it *)
}.

Record response : Type := mkRes {
  status : Z;
  sent : value       (* a string for send('...'), else the JSON value *)
}.

(** [res.status(code).send(x)] and [res.status(code).json(x)]; a bare
    [res.send(x)] answers with status 200. *)
Definition send (code : Z) (x : value) : response := mkRes code x.

Definition handler : Type := request -> M response.
Definition middleware : Type := request -> handler -> M response.

Definition with_user (req : request) (u : value) : request :=
  mkReq (headers req) (params req) (body req) u.

(** The comma operator: [(a, b)] evaluates [a], drops it and is [b]. *)
Definition comma {A B : Type} (a : A) (b : B) : B := b.

(** [const { k } = v]: a TypeError on [undefined] and [null]. *)
Definition destructure (v : value) (k : string) : M value :=
  if nullish v then throw (TypeError ("Cannot destructure property " ++ k))
  else ret (prop v k).

(** [new TextEncoder().encode(s)]: the parameter defaults to the empty
    string, so [undefined] encodes to no bytes at all. *)
Definition encode (s : value) : list byte :=
  match s with
  | VUndefined => []
  | _ => list_byte_of_string (to_string s)
  end.

(** ** The token library's time spans *)

(** The leading decimal digits of a string, and what follows them. *)
Fixpoint digits (s : string) (acc : Z) : Z * string :=
  match s with
  | EmptyString => (acc, EmptyString)
  | String c r =>
      let n := Z.of_N (N_of_ascii c) in
      if (48 <=? n) && (n <=? 57) then digits r (10 * acc + (n - 48))
      else (acc, s)
  end.

(** Modelled from the spec: seconds in a span such as '7h', a count and a
    unit, as the token library reads the argument of setExpirationTime. *)
Definition secs (span : string) : option Z :=
  let (n, unit) := digits span 0 in
  if String.eqb unit "s" then Some n
  else if String.eqb unit "m" then Some (n * 60)
  else if String.eqb unit "h" then Some (n * 60 * 60)
  else if String.eqb unit "d" then Some (n * 60 * 60 * 24)
  else if String.eqb unit "w" then Some (n * 60 * 60 * 24 * 7)
  else None.

(** A signed token before its compact serialization. *)
Record jws : Type := mkJws {
  protected : obj;
  claims : obj;
  signature : string
}.

(** Modelled from the spec: the builder of the jose package, whose code is
    not the controllers'.  Section 4.2 has the issuer build the claim set,
    set the header, set issued-at to the current time and the expiration to
    issued-at plus the span.  [SignJWT] is what [new SignJWT(payload)]
    accumulates. *)
Record SignJWT : Type := mkSignJWT {
  _protectedHeader : obj;
  _payload : obj
}.

Definition new_SignJWT (payload : obj) : SignJWT := mkSignJWT [] payload.

Definition setProtectedHeader (h : obj) (b : SignJWT) : SignJWT :=
  mkSignJWT h (_payload b).

Definition setIssuedAt (b : SignJWT) : M SignJWT :=
  t <- clock ;;
  ret (mkSignJWT (_protectedHeader b) (set "iat" (VNum t) (_payload b))).

Definition setExpirationTime (span : string) (b : SignJWT) : M SignJWT :=
  match secs span with
  | None => throw (TypeError "Invalid time period format")
  | Some d =>
      t <- clock ;;
      ret (mkSignJWT (_protectedHeader b)
                     (set "exp" (VNum (t + d)) (_payload b)))
  end.

(** Is [t] inside the validity window the claims carry? *)
Definition within (t : Z) (p : obj) : bool :=
  match get "iat" p, get "exp" p with
  | VNum i, VNum e => (i <=? t) && (t <=? e)
  | _, _ => false
  end.

(** ** What the store makes of a parameter *)

Definition is_space (c : ascii) : bool :=
  let n := Z.of_N (N_of_ascii c) in
  (n =? 32) || ((9 <=? n) && (n <=? 13)).

Definition is_digit (c : ascii) : bool :=
  let n := Z.of_N (N_of_ascii c) in
  (48 <=? n) && (n <=? 57).

Fixpoint skip_spaces (s : string) : string :=
  match s with
  | EmptyString => EmptyString
  | String c r => if is_space c then skip_spaces r else s
  end.

(** The range of the integer column. *)
Definition in_int4 (n : Z) : bool :=
  (-2147483648 <=? n) && (n <=? 2147483647).

(** The store's reading of a text as an integer: blanks, an optional sign,
    digits, blanks; [None] when the text is not of that form or the number
    is out of the column's range. *)
Definition int4_in (s : string) : option Z :=
  let s1 := skip_spaces s in
  let signed :=
    match s1 with
    | String c r =>
        if Ascii.eqb c "-" then (true, r)
        else if Ascii.eqb c "+" then (false, r)
        else (false, s1)
    | EmptyString => (false, s1)
    end in
  match snd signed with
  | EmptyString => None
  | String c _ =>
      if is_digit c then
        let (n, rest) := digits (snd signed) 0 in
        match skip_spaces rest with
        | EmptyString =>
            let v := if fst signed then - n else n in
            if in_int4 v then Some v else None
        | String _ _ => None
        end
      else None
  end.

(** A parameter compared with the integer column [id_users]: the driver
    sends its text and the store reads the text as an integer.  [undefined]
    and [null] are sent as NULL ([inr None]); a text that is no integer of
    the column's range makes the statement fail, as does a boolean, an
    array or an object, whose text is no number. *)
Definition pg_int4 (v : value) : exn + option Z :=
  match v with
  | VUndefined | VNull => inr None
  | VNum n => if in_int4 n then inr (Some n) else inl StoreError
  | VStr s =>
      match int4_in s with
      | Some n => inr (Some n)
      | None => inl StoreError
      end
  | VBool _ | VObj _ | VArr _ => inl StoreError
  end.

(** [column = $n] on the identifier: NULL equals nothing. *)
Definition id_is (k : option Z) (u : user_row) : bool :=
  match k with
  | Some n => col_id_users u =? n
  | None => false
  end.

(** A text column as the driver hands it over. *)
Definition column (c : option string) : value :=
  match c with
  | Some s => VStr s
  | None => VNull
  end.

(** The row as the driver hands it over in [result.rows]. *)
Definition row_obj (u : user_row) : obj :=
  [("id_users", VNum (col_id_users u)); ("name", column (col_name u));
   ("email", column (col_email u)); ("password", column (col_password u))].

(** The six statements the controllers send, with their parameters. *)
Inductive statement : Type :=
| SelectUsers                                  (* SELECT * FROM users *)
| SelectByEmail (e : value)                    (* ... WHERE email = $1 *)
| SelectById (id : value)                      (* ... WHERE id_users = $1 *)
| InsertUser (n e p : value)                   (* INSERT ... RETURNING * *)
| DeleteById (id : value)                      (* DELETE ... RETURNING * *)
| UpdateById (n e p id : value).               (* UPDATE ... RETURNING * *)

Definition with_table (t : list user_row) (n : Z) (w : world) : world :=
  mkWorld t n (db_down w) (now w) (entropy w) (console w).

Definition updated (n e p : option string) (k : option Z) (u : user_row)
  : user_row :=
  if id_is k u then mkRow (col_id_users u) n e p else u.

(** What the module takes from its environment and from the packages
    whose code is not its own. *)
Record platform : Type := mkPlatform {
  (** [process.env.secret], read once when the module loads: a string, or
      [undefined] when the variable is not set. *)
  secret : value;
  (** The native hasher behind [bcrypt]: the digest of a plaintext for a
      cost and a draw of entropy, and the check of a plaintext against a
      digest. *)
  bcrypt_digest : string -> Z -> N -> string;
  bcrypt_check : string -> string -> bool;
  (** The runtime's HMAC-SHA256 under a key, [None] when it refuses the
      key; the text a token's signature covers; the compact serialization
      of a token and its parser. *)
  hs256 : list byte -> string -> option string;
  signing_input : obj -> obj -> string;
  compact : jws -> string;
  decode : string -> option jws;
  (** The text the database driver sends for a parameter that is an array
      or an object. *)
  pg_composite : value -> string
}.

Section Controllers.

Variable P : platform.

(** [validateUser] of [../../validacion.js]. *)
Variable validateUser : middleware.

(** A parameter bound to a text column: the driver sends [undefined] and
    [null] as NULL, a string as it is, a number and a boolean as their
    text, an array or an object as the text it makes of them. *)
Definition pg_text (v : value) : option string :=
  match v with
  | VUndefined | VNull => None
  | VStr s => Some s
  | VNum n => Some (decimal n)
  | VBool true => Some "true"
  | VBool false => Some "false"
  | VObj _ | VArr _ => Some (pg_composite P v)
  end.

(** [email = $1]: NULL equals nothing, texts are equal when they are the
    same text. *)
Definition has_email (e : value) (u : user_row) : bool :=
  match pg_text e, col_email u with
  | Some a, Some b => String.eqb b a
  | _, _ => false
  end.

(** Modelled from the spec: the pool of [../db.js] and the table behind it,
    which are not part of the controllers' file.  Section 4.3 gives the
    repository as listAll, findByEmail, findById, insert, updateById and
    deleteById, each one atomic statement, and section 7 lets any of them
    fail with a store error.  [pool_query] answers [result.rows]; a
    statement whose identifier parameter the store cannot read as an
    integer fails and changes nothing. *)
Definition pool_query (q : statement) : M (list obj) :=
  fun w =>
    if db_down w then (inl StoreError, w)
    else match q with
         | SelectUsers => (inr (map row_obj (rows w)), w)
         | SelectByEmail e =>
             (inr (map row_obj (filter (has_email e) (rows w))), w)
         | SelectById id =>
             match pg_int4 id with
             | inl err => (inl err, w)
             | inr k => (inr (map row_obj (filter (id_is k) (rows w))), w)
             end
         | InsertUser n e p =>
             let u := mkRow (next_id w) (pg_text n) (pg_text e) (pg_text p) in
             (inr [row_obj u], with_table (rows w ++ [u]) (next_id w + 1) w)
         | DeleteById id =>
             match pg_int4 id with
             | inl err => (inl err, w)
             | inr k =>
                 (inr (map row_obj (filter (id_is k) (rows w))),
                  with_table (filter (fun u => negb (id_is k u)) (rows w))
                             (next_id w) w)
             end
         | UpdateById n e p id =>
             match pg_int4 id with
             | inl err => (inl err, w)
             | inr k =>
                 let f := updated (pg_text n) (pg_text e) (pg_text p) k in
                 (inr (map row_obj (map f (filter (id_is k) (rows w)))),
                  with_table (map f (rows w)) (next_id w) w)
             end
         end.

(** [bcrypt.hash(data, rounds)]: rejects a missing or non-string
    plaintext, else salts from fresh entropy. *)
Definition bcrypt_hash (data : value) (rounds : Z) : M string :=
  match data with
  | VUndefined | VNull =>
      throw (BcryptError "data and salt arguments required")
  | VStr s =>
      fun w => (inr (bcrypt_digest P s rounds (entropy w)),
                mkWorld (rows w) (next_id w) (db_down w) (now w)
                        (N.succ (entropy w)) (console w))
  | _ => throw (BcryptError "data must be a string or Buffer")
  end.

(** [bcrypt.compare(data, hash)] *)
Definition bcrypt_compare (data hash : value) : M bool :=
  match data, hash with
  | (VUndefined | VNull), _ | _, (VUndefined | VNull) =>
      throw (BcryptError "data and hash arguments required")
  | VStr d, VStr h => ret (bcrypt_check P d h)
  | _, _ => throw (BcryptError "data and hash must be strings")
  end.

(** Modelled from the spec: the token issuer of section 4.2, which the
    controllers take from the jose package.  [sign] closes the builder:
    it signs header and claims with the key and serializes the token. *)
Definition sign (key : list byte) (b : SignJWT) : M string :=
  match hs256 P key (signing_input P (_protectedHeader b) (_payload b)) with
  | Some s => ret (compact P (mkJws (_protectedHeader b) (_payload b) s))
  | None => throw (TypeError "the key cannot be used for HS256")
  end.

(** Does the token's signature match the key? *)
Definition signed_by (key : list byte) (j : jws) : bool :=
  match hs256 P key (signing_input P (protected j) (claims j)) with
  | Some s => String.eqb s (signature j)
  | None => false
  end.

(** Modelled from the spec: the token verifier of section 4.2, jose's
    [jwtVerify].  It checks the signature against the key and that the
    current time is within [issuedAt, expiration]; it signals an error,
    not a claim set, when the token is malformed, when the signature does
    not match, or when the time is outside the window. *)
Definition jwtVerify (token : value) (key : list byte) : M obj :=
  match token with
  | VStr s =>
      match decode P s with
      | None => throw (JoseError JWSInvalid)
      | Some j =>
          if signed_by key j then
            t <- clock ;;
            if within t (claims j) then ret (claims j)
            else throw (JoseError JWTExpired)
          else throw (JoseError JWSSignatureVerificationFailed)
      end
  | _ => throw (JoseError JWSInvalid)
  end.

(** *** authenticateToken *)

Definition authenticateToken : middleware :=
  fun req next =>
    let authorization := get "authorization" (headers req) in
    if negb (truthy authorization) then
      ret (send 401 (VStr "Token no proporcionado"))
    else
      try (payload <- jwtVerify authorization (encode (secret P)) ;;
           next (with_user req (VObj payload)))
      catch (fun err =>
        console_error err ;;
        ret (send 401 (VStr "Token inválido o expirado"))).

(** *** getUser *)

Definition getUser : handler :=
  comma authenticateToken (comma validateUser (fun req =>
    try (result <- pool_query SelectUsers ;;
         ret (send 200 (VArr (map VObj result))))
    catch (fun err =>
      console_error err ;;
      ret (send 500 (VStr "Error retrieving users"))))).

(** *** createUser *)

Definition createUser : handler :=
  comma validateUser (fun req =>
    name <- destructure (body req) "name" ;;
    email <- destructure (body req) "email" ;;
    password <- destructure (body req) "password" ;;
    try (hashedPassword <- bcrypt_hash password 10 ;;
         result <- pool_query (InsertUser name email (VStr hashedPassword)) ;;
         ret (send 201 (match result with
                        | [] => VUndefined
                        | row :: _ => VObj row
                        end)))
    catch (fun err =>
      console_error err ;;
      ret (send 500 (VStr "Error creating user")))).

(** *** login *)

Definition login : handler :=
  comma validateUser (fun req =>
    email <- destructure (body req) "email" ;;
    password <- destructure (body req) "password" ;;
    if negb (truthy email) || negb (truthy password) then
      ret (send 400 (VStr "Email y contraseña son requeridos"))
    else
      try (result <- pool_query (SelectByEmail email) ;;
           match result with
           | [] => ret (send 401 (VStr "Email inválido"))
           | user :: _ =>
               isPasswordValid <- bcrypt_compare password
                                                 (get "password" user) ;;
               if negb isPasswordValid then
                 ret (send 401 (VStr "Contraseña inválida"))
               else
                 let id_users := to_string (get "id_users" user) in
                 let jwtConstructor :=
                   new_SignJWT [("id_users", VStr id_users)] in
                 b <- setIssuedAt
                        (setProtectedHeader
                           [("alg", VStr "HS256"); ("typ", VStr "JWT")]
                           jwtConstructor) ;;
                 b <- setExpirationTime "7h" b ;;
                 jwt <- sign (encode (secret P)) b ;;
                 ret (send 200 (VObj [("jwt", VStr jwt)]))
           end)
      catch (fun err =>
        console_error err ;;
        ret (send 500 (VStr "Error al iniciar sesión")))).

(** *** getLogin *)

Definition getLogin : handler :=
  comma validateUser (comma authenticateToken (fun req =>
    id_users <- destructure (user req) "id_users" ;;
    try (result <- pool_query (SelectById id_users) ;;
         match result with
         | [] => ret (send 401 (VStr "Usuario no encontrado"))
         | user :: _ => ret (send 200 (VObj (delete "password" user)))
         end)
    catch (fun err =>
      console_error err ;;
      ret (send 401 (VStr "Token inválido o expirado"))))).

(** *** deleteUser *)

Definition deleteUser : handler :=
  comma validateUser (comma authenticateToken (fun req =>
    let id := get "id" (params req) in
    try (result <- pool_query (DeleteById id) ;;
         match result with
         | [] => ret (send 404 (VStr "Usuario no encontrado"))
         | user :: _ => ret (send 200 (VObj user))
         end)
    catch (fun err =>
      console_error err ;;
      ret (send 500 (VStr "Error al eliminar el usuario"))))).

(** *** actualizateUser *)

Definition actualizateUser : handler :=
  comma validateUser (comma authenticateToken (fun req =>
    let id := get "id" (params req) in
    name <- destructure (body req) "name" ;;
    email <- destructure (body req) "email" ;;
    password <- destructure (body req) "password" ;;
    if negb (truthy name) || negb (truthy email) || negb (truthy password)
    then ret (send 401 (VStr "Faltan datos"))
    else
      try (hashedPassword <- bcrypt_hash password 10 ;;
           result <- pool_query
                       (UpdateById name email (VStr hashedPassword) id) ;;
           match result with
           | [] => ret (send 404 (VStr "Usuario no encontrado"))
           | user :: _ => ret (send 200 (VObj (delete "password" user)))
           end)
      catch (fun err =>
        console_error err ;;
        ret (send 500 (VStr "Error al actualizar el usuario"))))).

End Controllers.

(** ** What a caller can observe *)

(** A field is missing when reading it gives a falsy value: the property is
    absent (so reads [undefined]), null, or empty. *)
Definition missing (k : string) (v : value) : bool :=
  negb (truthy (prop v k)).

(** Does the body carry the stored [password] column, as an own property of
    the object sent or of an object in the array sent? *)
Definition exposes_password (v : value) : bool :=
  match v with
  | VObj o => has_own "password" o
  | VArr items =>
      existsb (fun x => match x with
                        | VObj o => has_own "password" o
                        | _ => false
                        end) items
  | _ => false
  end.

(** The same for the outcome of a handler; nothing is exposed when nothing
    is sent. *)
Definition leaks (out : (exn + response) * world) : bool :=
  match fst out with
  | inr r => exposes_password (sent r)
  | inl _ => false
  end.

(** The header and the claims [login] gives the token of a row at time [t]. *)
Definition login_header : obj := [("alg", VStr "HS256"); ("typ", VStr "JWT")].

Definition login_claims (u : user_row) (t : Z) : obj :=
  [("id_users", VStr (decimal (col_id_users u)));
   ("iat", VNum t);
   ("exp", VNum (t + 7 * 60 * 60))].

(** Did the handler answer, and with one of these status codes? *)
Definition answers_with (codes : list Z) (out : (exn + response) * world)
  : bool :=
  match fst out with
  | inr r => existsb (Z.eqb (status r)) codes
  | inl _ => false
  end.

(** The identifiers in the table, in row order. *)
Definition ids (w : world) : list Z := map col_id_users (rows w).

(** The table keeps identifiers apart: no two rows share one and the
    sequence is ahead of them all. *)
Definition table_ok (w : world) : Prop :=
  NoDup (ids w) /\ Forall (fun i => i < next_id w) (ids w).

(** The table and its sequence are those of [w]. *)
Definition same_table (w w' : world) : Prop :=
  rows w' = rows w /\ next_id w' = next_id w.

(** The row as get self and update answer it: without the password. *)
Definition public_obj (u : user_row) : obj :=
  [("id_users", VNum (col_id_users u)); ("name", column (col_name u));
   ("email", column (col_email u))].

(** What a handler's catch block shows: an answer of 500 carries the fixed
    message [msg] and the error went to the console; any other answer left
    the console as it was. *)
Definition failure_is (msg : string) (w : world)
           (out : (exn + response) * world) : Prop :=
  match fst out with
  | inr r =>
      if status r =? 500
      then sent r = VStr msg /\ exists e, console (snd out) = e :: console w
      else console (snd out) = console w
  | inl _ => True
  end.

(** The state after [console.error(e)]. *)
Definition logged (e : exn) (w : world) : world :=
  mkWorld (rows w) (next_id w) (db_down w) (now w) (entropy w)
          (e :: console w).

(** What the guard's try block makes of the next handler's outcome: an
    answer passes, an exception is written to the console and answered
    401. *)
Definition guarded (out : (exn + response) * world)
  : (exn + response) * world :=
  match out with
  | (inr r, w') => (inr r, w')
  | (inl e, w') =>
      (inr (send 401 (VStr "Token inválido o expirado")), logged e w')
  end.

(** Case analysis along the branches of a handler: compute, then split on
    the innermost scrutinee that is stuck. *)
Ltac walk :=
  repeat first
    [ progress cbn -[decimal encode pg_int4 pg_text has_email id_is updated]
    | match goal with
      | |- context [match map _ ?l with _ => _ end] => destruct l eqn:?
      | |- context [match ?x with _ => _ end] =>
          lazymatch x with
          | context [match _ with _ => _ end] => fail
          | _ => destruct x eqn:?
          end
      end ].

Ltac open_handlers :=
  unfold getUser, createUser, login, getLogin, deleteUser, actualizateUser,
    comma, try_catch, bind, pool_query, bcrypt_hash, bcrypt_compare,
    destructure, setIssuedAt, setExpirationTime, sign, clock, console_error,
    ret, throw.

(** ** A small platform to run the handlers on

    The hasher keeps plaintext and salt in clear and the MAC joins key and
    text: enough to evaluate the handlers, nothing more. *)
Module Demo.

Definition digest (s : string) (rounds : Z) (e : N) : string :=
  s ++ "#" ++ decimal rounds ++ "#" ++ decimal (Z.of_N e).

Definition check (d h : string) : bool := String.prefix (d ++ "#") h.

Definition mac (key : list byte) (text : string) : option string :=
  Some (string_of_list_byte key ++ "/" ++ text).

Definition show (o : obj) : string :=
  concat ";" (map (fun kv => fst kv ++ "=" ++ to_string (snd kv)) o).

Definition input (h c : obj) : string := show h ++ "." ++ show c.

Definition serialize (j : jws) : string :=
  input (protected j) (claims j) ++ "." ++ signature j.

Definition ana : user_row :=
  mkRow 1 (Some "Ana") (Some "ana@x.com") (Some (digest "pw1" 10 0)).

(** Ana's token issued at time 1000 under the key "k", and the same
    token with another signature. *)
Definition ana_jws : jws :=
  mkJws login_header (login_claims ana 1000)
        ("k/" ++ input login_header (login_claims ana 1000)).

Definition forged_jws : jws :=
  mkJws login_header (login_claims ana 1000) "forged".

(** The parser knows the tokens of this file. *)
Definition parse (s : string) : option jws :=
  find (fun j => String.eqb (serialize j) s) [ana_jws; forged_jws].

Definition plat (sec : value) : platform :=
  mkPlatform sec digest check mac input serialize parse to_string.

Definition validate : middleware := fun req next => next req.

Definition world0 : world := mkWorld [ana] 2 false 1000 1 [].

Definition world_down : world := mkWorld [ana] 2 true 1000 1 [].

(** The same process 8 hours later. *)
Definition world_late : world := mkWorld [ana] 2 false 29800 1 [].

(** Requests without an authorization header. *)
Definition list_anon : request := mkReq [] [] (VObj []) VUndefined.

Definition delete_anon : request :=
  mkReq [] [("id", VStr "1")] (VObj []) VUndefined.

Definition delete_id (id : string) : request :=
  mkReq [] [("id", VStr id)] (VObj []) VUndefined.

Definition create_bea : request :=
  mkReq [] []
        (VObj [("name", VStr "Bea"); ("email", VStr "bea@x.com");
               ("password", VStr "pw2")]) VUndefined.


Definition login_ana (pw : string) : request :=
  mkReq [] [] (VObj [("email", VStr "ana@x.com"); ("password", VStr pw)])
        VUndefined.

(** A login whose password is the number 123. *)
Definition login_ana_123 : request :=
  mkReq [] [] (VObj [("email", VStr "ana@x.com"); ("password", VNum 123)])
        VUndefined.

Definition login_nobody : request :=
  mkReq [] [] (VObj [("email", VStr "eve@x.com"); ("password", VStr "pw1")])
        VUndefined.

Definition login_no_password : request :=
  mkReq [] [] (VObj [("email", VStr "ana@x.com")]) VUndefined.

(** A request nothing was parsed from. *)
Definition no_body : request := mkReq [] [("id", VStr "1")] VUndefined VUndefined.

(** A request an upstream middleware has attached the claims to. *)
Definition self_ana : request :=
  mkReq [] [] (VObj []) (VObj [("id_users", VStr "1")]).

Definition self_id (id : string) : request :=
  mkReq [] [] (VObj []) (VObj [("id_users", VStr id)]).

Definition update_no_email : request :=
  mkReq [] [("id", VStr "1")]
        (VObj [("name", VStr "Ana"); ("password", VStr "pw3")]) VUndefined.

Definition bearer (tok : string) : request :=
  mkReq [("authorization", VStr tok)] [] (VObj []) VUndefined.

(** An update with every field, for the path id [id]. *)
Definition update_id (id : string) : request :=
  mkReq [] [("id", VStr id)]
        (VObj [("name", VStr "Ana B"); ("email", VStr "anab@x.com");
               ("password", VStr "pw3")]) VUndefined.

Definition update_ana : request := update_id "1".

Definition update_nobody : request := update_id "9".


Definition self_nobody : request := self_id "9".



End Demo.

(** * Properties *)

(** ** Objects and lists *)

(** Reading a property an object does not have gives [undefined]. *)
Lemma absent_get (k : string) (o : obj) :
  has_own k o = false -> get k o = VUndefined.
Proof.
  unfold has_own.
  induction o as [|[k' v] o IH]; cbn [existsb get fst]; intro H.
  - reflexivity.
  - apply orb_false_elim in H as [Hk Ho]. rewrite Hk. exact (IH Ho).
Qed.

Lemma delete_has_own (k : string) (o : obj) : has_own k (delete k o) = false.
Proof.
  unfold has_own, delete.
  induction o as [|[k' v] o IH]; cbn [filter existsb fst]; [reflexivity|].
  destruct (String.eqb k k') eqn:E; cbn [negb existsb fst]; [exact IH|].
  rewrite E. exact IH.
Qed.

Lemma with_table_same (w : world) : with_table (rows w) (next_id w) w = w.
Proof. destruct w; reflexivity. Qed.

Lemma filter_nil_all {A} (p : A -> bool) (l : list A) :
  filter p l = [] -> filter (fun x => negb (p x)) l = l.
Proof.
  induction l as [|a l IH]; cbn [filter]; [reflexivity|].
  destruct (p a); cbn [negb]; [discriminate|].
  intro H. f_equal. exact (IH H).
Qed.

Lemma filter_of_rest {A} (p : A -> bool) (l : list A) :
  filter p (filter (fun x => negb (p x)) l) = [].
Proof.
  induction l as [|a l IH]; cbn [filter]; [reflexivity|].
  destruct (p a) eqn:E; cbn [negb filter]; [exact IH|].
  rewrite E. exact IH.
Qed.

Lemma filter_none {A} (p : A -> bool) (l : list A) :
  Forall (fun x => p x = false) l -> filter p l = [].
Proof.
  induction 1 as [|a l Ha _ IH]; cbn [filter]; [reflexivity|].
  rewrite Ha. exact IH.
Qed.

Lemma filter_nil_forall {A} (p : A -> bool) (l : list A) :
  filter p l = [] -> Forall (fun x => p x = false) l.
Proof.
  induction l as [|a l IH]; cbn [filter]; [constructor|].
  destruct (p a) eqn:E; [discriminate|].
  intro H. constructor; [exact E | exact (IH H)].
Qed.

Lemma filter_head {A} (p : A -> bool) (l : list A) (a : A) (r : list A) :
  filter p l = a :: r -> p a = true.
Proof.
  intro H.
  assert (Hin : In a (filter p l)) by (rewrite H; left; reflexivity).
  apply filter_In in Hin. tauto.
Qed.

Lemma filter_split_length {A} (p : A -> bool) (l : list A) :
  (List.length (filter p l)
   + List.length (filter (fun x => negb (p x)) l))%nat
  = List.length l.
Proof.
  induction l as [|a l IH]; cbn [filter]; [reflexivity|].
  destruct (p a); cbn [negb List.length]; lia.
Qed.

(** ** Identifiers written in decimal *)

Lemma digits_step (c : ascii) (r : string) (acc : Z) :
  is_digit c = true ->
  digits (String c r) acc =
  digits r (10 * acc + (Z.of_N (N_of_ascii c) - 48)).
Proof.
  unfold is_digit. intro H. cbn [digits]. cbv zeta. rewrite H. reflexivity.
Qed.

Lemma digits_uint_acc (d : Decimal.uint) :
  forall q, digits (NilEmpty.string_of_uint d) (Zpos q) =
            (Zpos (Pos.of_uint_acc d q), EmptyString).
Proof.
  induction d; intro q;
    cbn [NilEmpty.string_of_uint Pos.of_uint_acc];
    [reflexivity | ..];
    rewrite digits_step by reflexivity;
    rewrite <- IHd; f_equal;
    rewrite ?Pos2Z.inj_add, ?Pos2Z.inj_mul;
    match goal with
    | |- context [Z.of_N (N_of_ascii ?c)] =>
        let v := eval vm_compute in (Z.of_N (N_of_ascii c)) in
        change (Z.of_N (N_of_ascii c)) with v
    end; lia.
Qed.

Lemma digits_uint (d : Decimal.uint) :
  digits (NilEmpty.string_of_uint d) 0 =
  (Z.of_N (Pos.of_uint d), EmptyString).
Proof.
  induction d; cbn [NilEmpty.string_of_uint Pos.of_uint];
    [reflexivity | ..];
    rewrite digits_step by reflexivity;
    first [ exact IHd | apply digits_uint_acc ].
Qed.

(** The digits of a positive number are read back as that number, and
    open with a digit. *)
Lemma digits_of_positive (p : positive) :
  exists c r,
    NilEmpty.string_of_uint (Pos.to_uint p) = String c r /\
    is_digit c = true /\
    digits (String c r) 0 = (Zpos p, EmptyString).
Proof.
  pose proof (digits_uint (Pos.to_uint p)) as Hd.
  rewrite DecimalPos.Unsigned.of_to in Hd. cbn [Z.of_N] in Hd.
  pose proof (DecimalPos.Unsigned.to_uint_nonnil p) as Hnil.
  destruct (Pos.to_uint p) as [|d|d|d|d|d|d|d|d|d|d];
    [contradiction | ..];
    cbn [NilEmpty.string_of_uint] in *;
    eexists; eexists; (split; [reflexivity | split; [reflexivity | exact Hd]]).
Qed.

Lemma decimal_positive (p : positive) :
  decimal (Zpos p) = NilEmpty.string_of_uint (Pos.to_uint p).
Proof.
  unfold decimal. cbn [Z.to_int NilZero.string_of_int].
  pose proof (DecimalPos.Unsigned.to_uint_nonnil p) as Hnil.
  unfold NilZero.string_of_uint.
  destruct (Pos.to_uint p); [contradiction | reflexivity ..].
Qed.

Lemma decimal_negative (p : positive) :
  decimal (Zneg p) = String "-" (NilEmpty.string_of_uint (Pos.to_uint p)).
Proof.
  unfold decimal. cbn [Z.to_int NilZero.string_of_int].
  pose proof (DecimalPos.Unsigned.to_uint_nonnil p) as Hnil.
  unfold NilZero.string_of_uint.
  destruct (Pos.to_uint p); [contradiction | reflexivity ..].
Qed.

Lemma is_digit_plain (c : ascii) :
  is_digit c = true ->
  is_space c = false /\ Ascii.eqb c "-" = false /\ Ascii.eqb c "+" = false.
Proof.
  unfold is_digit, is_space. intro H.
  apply andb_true_iff in H as [H1 H2].
  apply Z.leb_le in H1. apply Z.leb_le in H2.
  repeat split.
  - apply orb_false_iff. split.
    + apply Z.eqb_neq. lia.
    + apply andb_false_iff. right. apply Z.leb_gt. lia.
  - apply Ascii.eqb_neq. intros ->. vm_compute in H1. contradiction.
  - apply Ascii.eqb_neq. intros ->. vm_compute in H1. contradiction.
Qed.

(** The store reads the decimal form of an integer back as that integer,
    when it fits the column. *)
Lemma int4_in_decimal (n : Z) :
  int4_in (decimal n) = if in_int4 n then Some n else None.
Proof.
  destruct n as [|p|p].
  - reflexivity.
  - rewrite decimal_positive.
    destruct (digits_of_positive p) as (c & r & Hs & Hc & Hd).
    rewrite Hs. destruct (is_digit_plain c Hc) as (Hsp & Hm & Hpl).
    unfold int4_in. cbn [skip_spaces]. rewrite Hsp, Hm, Hpl.
    cbn [snd fst]. rewrite Hc, Hd. reflexivity.
  - rewrite decimal_negative.
    destruct (digits_of_positive p) as (c & r & Hs & Hc & Hd).
    rewrite Hs.
    unfold int4_in. cbn [skip_spaces].
    change (is_space "-") with false. cbv iota.
    change (Ascii.eqb "-" "-") with true. cbv iota.
    cbn [snd fst]. rewrite Hc, Hd. reflexivity.
Qed.

(** A path id or a token claim written in decimal selects the rows with
    that identifier when it fits the column, and makes the statement fail
    when it does not. *)
Lemma pg_int4_decimal (n : Z) :
  pg_int4 (VStr (decimal n)) =
  if in_int4 n then inr (Some n) else inl StoreError.
Proof.
  unfold pg_int4. rewrite int4_in_decimal. destruct (in_int4 n); reflexivity.
Qed.

(** ** Rows told apart by their identifier *)

(** NULL is no row's identifier. *)
Lemma filter_id_null (l : list user_row) : filter (id_is None) l = [].
Proof.
  apply filter_none, Forall_forall. intros u _. reflexivity.
Qed.

(** An update that matches no row changes no row. *)
Lemma map_updated_none (n e p : option string) (k : option Z)
      (l : list user_row) :
  filter (id_is k) l = [] -> map (updated n e p k) l = l.
Proof.
  intro H. apply filter_nil_forall in H.
  induction H as [|u l Hu _ IH]; cbn [map]; [reflexivity|].
  unfold updated at 1. rewrite Hu. f_equal. exact IH.
Qed.

(** An update keeps every identifier where it was. *)
Lemma map_updated_ids (n e p : option string) (k : option Z)
      (l : list user_row) :
  map col_id_users (map (updated n e p k) l) = map col_id_users l.
Proof.
  rewrite map_map. apply map_ext. intro u.
  unfold updated. destruct (id_is k u); reflexivity.
Qed.


(** Where identifiers are apart, a row is the only one with its own. *)
Lemma filter_own_id (l : list user_row) (u : user_row) :
  NoDup (map col_id_users l) -> In u l ->
  filter (id_is (Some (col_id_users u))) l = [u].
Proof.
  unfold id_is.
  induction l as [|a l IH]; cbn [map filter]; intros Hnd Hin; [destruct Hin|].
  inversion Hnd as [|x xs Hnot Hnd']; subst.
  destruct Hin as [-> | Hin].
  - rewrite Z.eqb_refl. f_equal. apply filter_none.
    apply Forall_forall. intros x Hx. apply Z.eqb_neq. intro Heq.
    apply Hnot. rewrite <- Heq. apply in_map. exact Hx.
  - destruct (Z.eqb_spec (col_id_users a) (col_id_users u)) as [Heq | _].
    + exfalso. apply Hnot. rewrite Heq. apply in_map. exact Hin.
    + exact (IH Hnd' Hin).
Qed.

(** ** The invariant of the table under the three writes *)

(** Dropping rows keeps the remaining identifiers apart. *)
Lemma kept_ids_apart (q : user_row -> bool) (t : list user_row) :
  NoDup (map col_id_users t) -> NoDup (map col_id_users (filter q t)).
Proof.
  intro Hnd. induction t as [|u t IH]; cbn [map filter] in *; [exact Hnd|].
  apply NoDup_cons_iff in Hnd as [Hfresh Hrest].
  specialize (IH Hrest).
  destruct (q u); [|exact IH].
  cbn [map]. apply NoDup_cons; [|exact IH].
  intro Hin. apply Hfresh.
  apply in_map_iff in Hin as [v [Hv Hmem]].
  apply filter_In in Hmem as [Hmem _].
  rewrite <- Hv. apply in_map. exact Hmem.
Qed.

Lemma table_ok_insert (w : world) (n e p : option string) :
  table_ok w ->
  table_ok (with_table (rows w ++ [mkRow (next_id w) n e p])
                       (next_id w + 1) w).
Proof.
  unfold table_ok, ids, with_table. cbn [rows next_id].
  intros [Hnd Hlt]. rewrite map_app. cbn [map col_id_users]. split.
  - apply NoDup_app; [exact Hnd | repeat constructor; intros [] |].
    intros x Hx Hin. destruct Hin as [<- | []].
    rewrite Forall_forall in Hlt. specialize (Hlt _ Hx). lia.
  - apply Forall_app. split.
    + eapply Forall_impl; [|exact Hlt]. intros; cbn beta in *; lia.
    + repeat constructor. lia.
Qed.

Lemma table_ok_delete (w : world) (q : user_row -> bool) :
  table_ok w ->
  table_ok (with_table (filter q (rows w)) (next_id w) w).
Proof.
  unfold table_ok, ids, with_table. cbn [rows next_id].
  intros [Hnd Hlt]. split.
  - apply kept_ids_apart. exact Hnd.
  - rewrite Forall_map in *. rewrite Forall_forall in *.
    intros u Hu. apply filter_In in Hu. apply Hlt. tauto.
Qed.

Lemma table_ok_update (w : world) (n e p : option string) (k : option Z) :
  table_ok w ->
  table_ok (with_table (map (updated n e p k) (rows w)) (next_id w) w).
Proof.
  unfold table_ok, ids, with_table. cbn [rows next_id].
  rewrite map_updated_ids. tauto.
Qed.

(** The invariant looks at the table and its sequence only. *)
Lemma table_ok_same (w w' : world) :
  rows w' = rows w -> next_id w' = next_id w -> table_ok w -> table_ok w'.
Proof.
  unfold table_ok, ids. intros -> ->. tauto.
Qed.

Section Properties.

Variable P : platform.
Variable validateUser : middleware.

(** ** Plumbing *)

Lemma bind_ret {A B} (a : A) (k : A -> M B) : bind (ret a) k = k a.
Proof. reflexivity. Qed.

Lemma truthy_string (p : string) : p <> "" -> truthy (VStr p) = true.
Proof.
  intro H. cbn [truthy]. apply negb_true_iff, String.eqb_neq. exact H.
Qed.

(** A field that is there belongs to a body that is there. *)
Lemma present_parsed (v : value) (k : string) :
  missing k v = false -> nullish v = false.
Proof. destruct v; cbn; congruence. Qed.

Lemma string_parsed (v : value) (k p : string) :
  prop v k = VStr p -> nullish v = false.
Proof. destruct v; cbn; congruence. Qed.

(** Every statement keeps the invariant, whether it succeeds or not. *)
Lemma pool_query_table_ok (q : statement) (w : world) :
  table_ok w -> table_ok (snd (pool_query P q w)).
Proof.
  intro H. unfold pool_query.
  destruct (db_down w); [exact H|].
  destruct q; cbn [snd]; try exact H;
    try (destruct (pg_int4 id); cbn [snd]; try exact H).
  - apply table_ok_insert. exact H.
  - apply table_ok_delete. exact H.
  - apply table_ok_update. exact H.
Qed.

(** ** What the exported handlers are

    Each export is written as a parenthesised list, the guards first and
    the request function last; its value is the request function alone. *)

Lemma getUser_unguarded (req : request) :
  getUser P validateUser req =
  (try (result <- pool_query P SelectUsers ;;
        ret (send 200 (VArr (map VObj result))))
   catch (fun err =>
     console_error err ;; ret (send 500 (VStr "Error retrieving users")))).
Proof. reflexivity. Qed.


(** *** C1 *)

(** C1 (fails on the code): the claim says that no response carries the
    stored password.  On a table holding one user, listing the users,
    creating a user and deleting a user each answer with an object that
    has the [password] column. *)
Theorem stored_password_is_sent :
  leaks (getUser P validateUser Demo.list_anon Demo.world0) = true /\
  leaks (createUser P validateUser Demo.create_bea Demo.world0) = true /\
  leaks (deleteUser P validateUser Demo.delete_anon Demo.world0) = true.
Proof. repeat split; reflexivity. Qed.

(** The two handlers that drop the column expose nothing, whatever the
    request and the state. *)
Lemma getLogin_hides_password (req : request) (w : world) :
  leaks (getLogin P validateUser req w) = false.
Proof.
  unfold leaks. open_handlers. walk; reflexivity.
Qed.

Lemma actualizateUser_hides_password (req : request) (w : world) :
  leaks (actualizateUser P validateUser req w) = false.
Proof.
  unfold leaks. open_handlers. walk; reflexivity.
Qed.

(** *** C2 *)

(** C2 (fails on the code): the claim says that a request without a token
    is answered 401 before the store is reached.  A list request with no
    authorization header is answered 200 with every row, and a delete
    request with no authorization header removes the row. *)
Theorem handlers_skip_token_check :
  getUser P validateUser Demo.list_anon Demo.world0 =
    (inr (send 200 (VArr [VObj (row_obj Demo.ana)])), Demo.world0) /\
  deleteUser P validateUser Demo.delete_anon Demo.world0 =
    (inr (send 200 (VObj (row_obj Demo.ana))),
     with_table [] 2 Demo.world0).
Proof. split; reflexivity. Qed.

(** Get self without a verified token sends nothing: reading the claim
    off the request throws before the [try]. *)
Lemma getLogin_without_claims (req : request) (w : world) :
  user req = VUndefined ->
  getLogin P validateUser req w =
  (inl (TypeError "Cannot destructure property id_users"), w).
Proof.
  intro H. unfold getLogin, comma, bind, destructure. rewrite H. reflexivity.
Qed.

(** *** C4 *)

(** C4 (fails on the code): the claim says that every handler answers a
    store failure with 500.  Get self, with the store down, answers 401
    with the message of an invalid token. *)
Theorem getLogin_store_failure_answers_401 :
  getLogin P validateUser Demo.self_ana Demo.world_down =
  (inr (send 401 (VStr "Token inválido o expirado")),
   mkWorld [Demo.ana] 2 true 1000 1 [StoreError]).
Proof. reflexivity. Qed.

(** *** C6 *)

(** C6: an update request whose body lacks one of name, email and
    password is answered 401 "Faltan datos", and the process state, the
    table with it, is the one the request found. *)
Theorem actualizateUser_missing_field (req : request) (w : world) :
  nullish (body req) = false ->
  missing "name" (body req) = true \/
  missing "email" (body req) = true \/
  missing "password" (body req) = true ->
  actualizateUser P validateUser req w =
  (inr (send 401 (VStr "Faltan datos")), w).
Proof.
  intros Hb Hm.
  unfold actualizateUser, comma, destructure. rewrite Hb. cbv iota.
  repeat (rewrite bind_ret; cbv beta).
  unfold missing in Hm.
  destruct Hm as [H | [H | H]]; rewrite H;
    rewrite ?orb_true_r, ?orb_true_l; reflexivity.
Qed.

(** *** C5 *)

(** [login] reads the body before its try block. *)
Lemma login_no_body (req : request) (w : world) :
  nullish (body req) = true ->
  login P validateUser req w =
  (inl (TypeError "Cannot destructure property email"), w).
Proof.
  intro Hb. unfold login, comma, destructure, bind. rewrite Hb. reflexivity.
Qed.

(** [login] turns a request down before the store is asked when a field
    is missing. *)
Lemma login_missing_field (req : request) (w : world) :
  nullish (body req) = false ->
  missing "email" (body req) = true \/
  missing "password" (body req) = true ->
  login P validateUser req w =
  (inr (send 400 (VStr "Email y contraseña son requeridos")), w).
Proof.
  intros Hb Hm. unfold login, comma, destructure. rewrite Hb. cbv iota.
  repeat (rewrite bind_ret; cbv beta).
  unfold missing in Hm.
  destruct Hm as [H | H]; rewrite H; rewrite ?orb_true_r; reflexivity.
Qed.

Lemma login_store_down (req : request) (w : world) :
  missing "email" (body req) = false ->
  missing "password" (body req) = false ->
  db_down w = true ->
  login P validateUser req w =
  (inr (send 500 (VStr "Error al iniciar sesión")), logged StoreError w).
Proof.
  intros He Hp Hd. pose proof (present_parsed _ _ He) as Hb.
  unfold login, comma, destructure. rewrite Hb. cbv iota.
  repeat (rewrite bind_ret; cbv beta).
  unfold missing in He, Hp. rewrite He, Hp. cbn [orb].
  unfold try_catch, bind, pool_query. rewrite Hd. reflexivity.
Qed.

Lemma login_unknown_email (req : request) (w : world) :
  missing "email" (body req) = false ->
  missing "password" (body req) = false ->
  db_down w = false ->
  filter (has_email P (prop (body req) "email")) (rows w) = [] ->
  login P validateUser req w =
  (inr (send 401 (VStr "Email inválido")), w).
Proof.
  intros He Hp Hup Hrows. pose proof (present_parsed _ _ He) as Hb.
  unfold login, comma, destructure. rewrite Hb. cbv iota.
  repeat (rewrite bind_ret; cbv beta).
  unfold missing in He, Hp. rewrite He, Hp. cbn [orb].
  unfold try_catch, bind, pool_query. rewrite Hup, Hrows. reflexivity.
Qed.

(** A password that is not a string, or a row without a stored hash, makes
    [bcrypt.compare] reject, and the catch block answers. *)
Lemma login_unverifiable (req : request) (w : world) (u : user_row)
      (rest : list user_row) :
  missing "email" (body req) = false ->
  missing "password" (body req) = false ->
  db_down w = false ->
  filter (has_email P (prop (body req) "email")) (rows w) = u :: rest ->
  (forall p, prop (body req) "password" <> VStr p) \/ col_password u = None ->
  exists msg,
    login P validateUser req w =
    (inr (send 500 (VStr "Error al iniciar sesión")),
     logged (BcryptError msg) w).
Proof.
  intros He Hp Hup Hrows Hbad. pose proof (present_parsed _ _ He) as Hb.
  unfold login, comma, destructure. rewrite Hb. cbv iota.
  repeat (rewrite bind_ret; cbv beta).
  unfold missing in He, Hp. rewrite He, Hp. cbn [orb].
  unfold try_catch, bind at 1. unfold pool_query. rewrite Hup, Hrows.
  cbn [map row_obj get String.eqb Ascii.eqb Bool.eqb].
  destruct (prop (body req) "password") as [| |pb|pn|p|po|pl] eqn:Hpw;
    destruct (col_password u) as [h|] eqn:Hh;
    cbn [column bcrypt_compare bind throw];
    try (eexists; reflexivity).
  exfalso. destruct Hbad as [Hbad | Hbad];
    [exact (Hbad p eq_refl) | discriminate Hbad].
Qed.

(** What [login] does once both fields are there and the store answers
    with a first row for the e-mail. *)
Lemma login_found (req : request) (w : world) (u : user_row)
      (rest : list user_row) (p h : string) :
  missing "email" (body req) = false ->
  db_down w = false ->
  filter (has_email P (prop (body req) "email")) (rows w) = u :: rest ->
  prop (body req) "password" = VStr p ->
  p <> "" ->
  col_password u = Some h ->
  login P validateUser req w =
  if bcrypt_check P p h then
    match hs256 P (encode (secret P))
                (signing_input P login_header (login_claims u (now w))) with
    | Some s =>
        (inr (send 200 (VObj [("jwt",
                VStr (compact P (mkJws login_header
                                       (login_claims u (now w)) s)))])), w)
    | None =>
        (inr (send 500 (VStr "Error al iniciar sesión")),
         logged (TypeError "the key cannot be used for HS256") w)
    end
  else (inr (send 401 (VStr "Contraseña inválida")), w).
Proof.
  intros He Hup Hrows Hp Hne Hh. pose proof (present_parsed _ _ He) as Hb.
  unfold login, comma, destructure. rewrite Hb. cbv iota.
  repeat (rewrite bind_ret; cbv beta).
  unfold missing in He. rewrite He, Hp, (truthy_string p Hne). cbn [negb orb].
  unfold try_catch, bind at 1. unfold pool_query. rewrite Hup, Hrows.
  cbn [map row_obj get String.eqb Ascii.eqb Bool.eqb]. rewrite Hh.
  cbn [column bcrypt_compare bind ret].
  destruct (bcrypt_check P p h); cbn [negb]; [|reflexivity].
  unfold bind, setIssuedAt, setExpirationTime, sign, clock, ret, bind.
  cbn [secs digits]. cbn.
  fold login_header. fold (login_claims u (now w)).
  destruct (hs256 P _ _); reflexivity.
Qed.

(** C5 (as amended): the outcomes of a login, for every request.  With no
    parsed body the handler throws before it answers.  A missing e-mail or
    password is answered 400.  Otherwise a store failure is answered 500;
    no row for the e-mail is answered 401; for the first row found, a
    string password the stored hash does not verify is answered 401, a
    string password it verifies is answered 200 with exactly the token
    signed for that row in the body (500 when the runtime refuses the
    key), and a password that is not a string, or a row without a hash,
    is answered 500. *)
Theorem login_outcomes (req : request) (w : world) :
  (nullish (body req) = true ->
   login P validateUser req w =
   (inl (TypeError "Cannot destructure property email"), w)) /\
  (nullish (body req) = false ->
   missing "email" (body req) = true \/
   missing "password" (body req) = true ->
   login P validateUser req w =
   (inr (send 400 (VStr "Email y contraseña son requeridos")), w)) /\
  (missing "email" (body req) = false ->
   missing "password" (body req) = false ->
   (db_down w = true ->
    login P validateUser req w =
    (inr (send 500 (VStr "Error al iniciar sesión")), logged StoreError w)) /\
   (db_down w = false ->
    (filter (has_email P (prop (body req) "email")) (rows w) = [] ->
     login P validateUser req w =
     (inr (send 401 (VStr "Email inválido")), w)) /\
    (forall u rest,
       filter (has_email P (prop (body req) "email")) (rows w) = u :: rest ->
       (forall p h,
          prop (body req) "password" = VStr p ->
          col_password u = Some h ->
          (bcrypt_check P p h = false ->
           login P validateUser req w =
           (inr (send 401 (VStr "Contraseña inválida")), w)) /\
          (bcrypt_check P p h = true ->
           (forall s,
              hs256 P (encode (secret P))
                    (signing_input P login_header (login_claims u (now w)))
              = Some s ->
              login P validateUser req w =
              (inr (send 200 (VObj [("jwt",
                      VStr (compact P (mkJws login_header
                                             (login_claims u (now w)) s)))])),
               w)) /\
           (hs256 P (encode (secret P))
                  (signing_input P login_header (login_claims u (now w)))
            = None ->
            login P validateUser req w =
            (inr (send 500 (VStr "Error al iniciar sesión")),
             logged (TypeError "the key cannot be used for HS256") w)))) /\
       ((forall p, prop (body req) "password" <> VStr p) \/
        col_password u = None ->
        exists msg,
          login P validateUser req w =
          (inr (send 500 (VStr "Error al iniciar sesión")),
           logged (BcryptError msg) w))))).
Proof.
  split; [apply login_no_body|]. split; [apply login_missing_field|].
  intros He Hp. split; [apply login_store_down; assumption|].
  intro Hup. split; [apply login_unknown_email; assumption|].
  intros u rest Hrows. split.
  - intros p h Hpw Hh.
    assert (Hne : p <> "").
    { unfold missing in Hp. rewrite Hpw in Hp. cbn [truthy] in Hp.
      apply negb_false_iff, negb_true_iff, String.eqb_neq in Hp. exact Hp. }
    rewrite (login_found req w u rest p h He Hup Hrows Hpw Hne Hh).
    split; intro Hc; rewrite Hc; [reflexivity|].
    split; [intros s Hs | intro Hs]; rewrite Hs; reflexivity.
  - apply (login_unverifiable req w u rest); assumption.
Qed.

(** *** C8 *)

(** C8: whenever [login] answers 200, the body is [{ jwt }] for the token
    whose claims are the identifier of the row found for the e-mail, the
    issue time [now] and the expiry [now] plus 7 hours, whose protected
    header is HS256/JWT, and whose signature is the HMAC of header and
    claims under the encoded secret. *)
Theorem login_token_contents (req : request) (w w' : world) (r : response) :
  login P validateUser req w = (inr r, w') ->
  status r = 200 ->
  exists u rest s,
    filter (has_email P (prop (body req) "email")) (rows w) = u :: rest /\
    get "id_users" (login_claims u (now w)) =
      VStr (decimal (col_id_users u)) /\
    get "iat" (login_claims u (now w)) = VNum (now w) /\
    get "exp" (login_claims u (now w)) = VNum (now w + 7 * 3600) /\
    hs256 P (encode (secret P))
          (signing_input P login_header (login_claims u (now w))) = Some s /\
    sent r =
      VObj [("jwt", VStr (compact P (mkJws login_header
                                           (login_claims u (now w)) s)))] /\
    w' = w.
Proof.
  intros Hrun Hst.
  destruct (nullish (body req)) eqn:Hb.
  { rewrite (login_no_body req w Hb) in Hrun. discriminate Hrun. }
  destruct (missing "email" (body req)) eqn:He.
  { rewrite (login_missing_field req w Hb (or_introl He)) in Hrun.
    inversion Hrun; subst r; discriminate Hst. }
  destruct (missing "password" (body req)) eqn:Hp.
  { rewrite (login_missing_field req w Hb (or_intror Hp)) in Hrun.
    inversion Hrun; subst r; discriminate Hst. }
  destruct (db_down w) eqn:Hup.
  { rewrite (login_store_down req w He Hp Hup) in Hrun.
    inversion Hrun; subst r; discriminate Hst. }
  destruct (filter (has_email P (prop (body req) "email")) (rows w))
    as [|u rest] eqn:Hrows.
  { rewrite (login_unknown_email req w He Hp Hup Hrows) in Hrun.
    inversion Hrun; subst r; discriminate Hst. }
  assert (Hbad : (forall p, prop (body req) "password" <> VStr p) \/
                 col_password u = None -> False).
  { intro Hbad.
    destruct (login_unverifiable req w u rest He Hp Hup Hrows Hbad)
      as [msg Hmsg].
    rewrite Hmsg in Hrun. inversion Hrun; subst r; discriminate Hst. }
  destruct (prop (body req) "password") as [| |pb|pn|p|po|pl] eqn:Hpw;
    try (exfalso; apply Hbad; left; intros q Hq; discriminate Hq).
  destruct (col_password u) as [h|] eqn:Hh;
    [|exfalso; apply Hbad; right; reflexivity].
  assert (Hne : p <> "").
  { unfold missing in Hp. rewrite Hpw in Hp. cbn [truthy] in Hp.
    apply negb_false_iff, negb_true_iff, String.eqb_neq in Hp. exact Hp. }
  rewrite (login_found req w u rest p h He Hup Hrows Hpw Hne Hh) in Hrun.
  destruct (bcrypt_check P p h).
  - destruct (hs256 P _ _) as [s|] eqn:Hs.
    + inversion Hrun; subst r w'. exists u, rest, s.
      repeat split; reflexivity || assumption.
    + inversion Hrun; subst r; discriminate Hst.
  - inversion Hrun; subst r; discriminate Hst.
Qed.

(** *** C7 *)

(** The verifier leaves the process state alone. *)
Lemma jwtVerify_pure (token : value) (key : list byte) (w : world) :
  snd (jwtVerify P token key w) = w.
Proof.
  unfold jwtVerify.
  destruct token; try reflexivity.
  destruct (decode P s) as [j|]; [|reflexivity].
  destruct (signed_by P key j); [|reflexivity].
  unfold bind, clock. destruct (within (now w) (claims j)); reflexivity.
Qed.

(** The verifier signals an error exactly in the three cases. *)
Lemma jwtVerify_invalid (tok : string) (key : list byte) (w : world) :
  (exists e, fst (jwtVerify P (VStr tok) key w) = inl e) <->
  (decode P tok = None \/
   exists j, decode P tok = Some j /\
             (signed_by P key j = false \/
              within (now w) (claims j) = false)).
Proof.
  unfold jwtVerify.
  destruct (decode P tok) as [j|] eqn:Hd.
  - destruct (signed_by P key j) eqn:Hs.
    + unfold bind, clock.
      destruct (within (now w) (claims j)) eqn:Hw; cbn [fst]; split.
      * intros [e He]. discriminate He.
      * intros [Hn | [j' [Hj [Hf | Hf]]]]; try discriminate Hn;
          injection Hj as <-; congruence.
      * intros _. right. exists j. auto.
      * intros _. eexists. reflexivity.
    + cbn [fst throw]. split.
      * intros _. right. exists j. auto.
      * intros _. eexists. reflexivity.
  - cbn [fst throw]. split.
    + intros _. left. reflexivity.
    + intros _. eexists. reflexivity.
Qed.

(** What the guard does once a token is there: the verification and the
    next handler run inside one try block. *)
Lemma authenticateToken_run (req : request) (next : handler) (w : world) :
  missing "authorization" (VObj (headers req)) = false ->
  authenticateToken P req next w =
  match fst (jwtVerify P (get "authorization" (headers req))
                       (encode (secret P)) w) with
  | inr c => guarded (next (with_user req (VObj c)) w)
  | inl e =>
      (inr (send 401 (VStr "Token inválido o expirado")), logged e w)
  end.
Proof.
  unfold missing. cbn [prop]. intro Hm. apply negb_false_iff in Hm.
  unfold authenticateToken. rewrite Hm. cbn [negb].
  pose proof (jwtVerify_pure (get "authorization" (headers req))
                             (encode (secret P)) w) as Hpure.
  unfold try_catch, bind at 1.
  destruct (jwtVerify P (get "authorization" (headers req))
                      (encode (secret P)) w) as [[e|c] w1];
    cbn [fst snd] in *; subst w1; [reflexivity|].
  unfold guarded.
  destruct (next (with_user req (VObj c)) w) as [[e|r] w2]; reflexivity.
Qed.

(** Whatever the verifier's error, the caller gets the one answer. *)
Lemma authenticateToken_rejected (req : request) (next : handler)
      (w : world) (tok : string) (e : exn) :
  get "authorization" (headers req) = VStr tok ->
  tok <> "" ->
  fst (jwtVerify P (VStr tok) (encode (secret P)) w) = inl e ->
  authenticateToken P req next w =
  (inr (send 401 (VStr "Token inválido o expirado")),
   snd (console_error e w)).
Proof.
  intros Ha Hne Hv.
  rewrite authenticateToken_run.
  - rewrite Ha, Hv. reflexivity.
  - unfold missing. cbn [prop]. rewrite Ha, (truthy_string tok Hne).
    reflexivity.
Qed.

(** C7: for a token presented in the authorization header, verification
    signals an error, and no claim set, exactly when the token does not
    parse, when its signature does not match the encoded secret, or when
    the current time is outside the window of its claims; every such
    token is answered 401 with the same body, so a tampered token and an
    expired one get equal responses. *)
Theorem token_rejections_look_alike (next : handler) (w : world) :
  (forall tok,
     (exists e, fst (jwtVerify P (VStr tok) (encode (secret P)) w) = inl e)
     <->
     (decode P tok = None \/
      exists j, decode P tok = Some j /\
                (signed_by P (encode (secret P)) j = false \/
                 within (now w) (claims j) = false))) /\
  (forall req tok e,
     get "authorization" (headers req) = VStr tok ->
     tok <> "" ->
     fst (jwtVerify P (VStr tok) (encode (secret P)) w) = inl e ->
     fst (authenticateToken P req next w) =
     inr (send 401 (VStr "Token inválido o expirado"))) /\
  (forall req req' tok tok' j j',
     get "authorization" (headers req) = VStr tok ->
     get "authorization" (headers req') = VStr tok' ->
     tok <> "" -> tok' <> "" ->
     decode P tok = Some j ->
     signed_by P (encode (secret P)) j = false ->
     decode P tok' = Some j' ->
     signed_by P (encode (secret P)) j' = true ->
     within (now w) (claims j') = false ->
     fst (authenticateToken P req next w) =
     fst (authenticateToken P req' next w)).
Proof.
  split; [|split].
  - intro tok. apply jwtVerify_invalid.
  - intros req tok e Ha Hne Hv.
    rewrite (authenticateToken_rejected req next w tok e Ha Hne Hv).
    reflexivity.
  - intros req req' tok tok' j j' Ha Ha' Hne Hne' Hd Hs Hd' Hs' Hw'.
    destruct (proj2 (jwtVerify_invalid tok (encode (secret P)) w))
      as [e He].
    { right. exists j. auto. }
    destruct (proj2 (jwtVerify_invalid tok' (encode (secret P)) w))
      as [e' He'].
    { right. exists j'. auto. }
    rewrite (authenticateToken_rejected req next w tok e Ha Hne He).
    rewrite (authenticateToken_rejected req' next w tok' e' Ha' Hne' He').
    reflexivity.
Qed.


(** *** C9 *)

(** What a delete does, the store answering. *)
Lemma deleteUser_run (req : request) (w : world) :
  db_down w = false ->
  deleteUser P validateUser req w =
  match pg_int4 (get "id" (params req)) with
  | inl e =>
      (inr (send 500 (VStr "Error al eliminar el usuario")), logged e w)
  | inr k =>
      match filter (id_is k) (rows w) with
      | [] => (inr (send 404 (VStr "Usuario no encontrado")), w)
      | u :: _ =>
          (inr (send 200 (VObj (row_obj u))),
           with_table (filter (fun x => negb (id_is k x)) (rows w))
                      (next_id w) w)
      end
  end.
Proof.
  intro Hup.
  unfold deleteUser, comma, try_catch, bind, pool_query. rewrite Hup.
  destruct (pg_int4 (get "id" (params req))) as [e|k]; [reflexivity|].
  destruct (filter (id_is k) (rows w)) as [|u rest] eqn:Hf;
    cbn [map ret]; [|reflexivity].
  rewrite (filter_nil_all _ _ Hf), with_table_same. reflexivity.
Qed.

(** What get self does with claims, the store answering. *)
Lemma getLogin_run (req : request) (w : world) (c : obj) :
  user req = VObj c ->
  db_down w = false ->
  getLogin P validateUser req w =
  match pg_int4 (get "id_users" c) with
  | inl e =>
      (inr (send 401 (VStr "Token inválido o expirado")), logged e w)
  | inr k =>
      match filter (id_is k) (rows w) with
      | [] => (inr (send 401 (VStr "Usuario no encontrado")), w)
      | u :: _ => (inr (send 200 (VObj (public_obj u))), w)
      end
  end.
Proof.
  intros Hu Hup.
  unfold getLogin, comma, destructure. rewrite Hu.
  cbn [nullish prop]. rewrite bind_ret.
  unfold try_catch, bind, pool_query. rewrite Hup.
  destruct (pg_int4 (get "id_users" c)) as [e|k]; [reflexivity|].
  destruct (filter (id_is k) (rows w)) as [|u rest]; reflexivity.
Qed.

(** C9 (as amended): the outcomes of a delete, the store answering.  A
    path id the store cannot read as an integer of the identifier column
    makes the statement fail and is answered 500.  A path id it reads as
    [k]: if no row has that identifier the answer is 404 and nothing
    changes; if a row has it the answer is 200 with that row, and
    afterwards get self for that id answers "Usuario no encontrado", the
    list of users holds no row with that identifier, and the same delete
    answers 404. *)
Theorem deleteUser_outcomes (req : request) (w : world) :
  db_down w = false ->
  (forall e,
     pg_int4 (get "id" (params req)) = inl e ->
     deleteUser P validateUser req w =
     (inr (send 500 (VStr "Error al eliminar el usuario")), logged e w)) /\
  (forall k,
     pg_int4 (get "id" (params req)) = inr k ->
     (filter (id_is k) (rows w) = [] ->
      deleteUser P validateUser req w =
      (inr (send 404 (VStr "Usuario no encontrado")), w)) /\
     (forall u rest,
        filter (id_is k) (rows w) = u :: rest ->
        exists w',
          deleteUser P validateUser req w =
            (inr (send 200 (VObj (row_obj u))), w') /\
          (forall req',
             user req' = VObj [("id_users", get "id" (params req))] ->
             getLogin P validateUser req' w' =
             (inr (send 401 (VStr "Usuario no encontrado")), w')) /\
          (forall req',
             getUser P validateUser req' w' =
             (inr (send 200 (VArr (map VObj (map row_obj (rows w'))))), w')) /\
          Forall (fun x => id_is k x = false) (rows w') /\
          deleteUser P validateUser req w' =
          (inr (send 404 (VStr "Usuario no encontrado")), w'))).
Proof.
  intro Hup. split.
  - intros e He. rewrite (deleteUser_run req w Hup), He. reflexivity.
  - intros k Hk. split.
    + intro Hnone. rewrite (deleteUser_run req w Hup), Hk, Hnone.
      reflexivity.
    + intros u rest Hsome.
      exists (with_table (filter (fun x => negb (id_is k x)) (rows w))
                         (next_id w) w).
      assert (Hup' : db_down (with_table
                                (filter (fun x => negb (id_is k x)) (rows w))
                                (next_id w) w) = false) by exact Hup.
      assert (Hgone : filter (id_is k)
                             (rows (with_table
                                      (filter (fun x => negb (id_is k x))
                                              (rows w))
                                      (next_id w) w)) = []).
      { cbn [with_table rows]. apply filter_of_rest. }
      split; [|split; [|split; [|split]]].
      * rewrite (deleteUser_run req w Hup), Hk, Hsome. reflexivity.
      * intros req' Hu.
        rewrite (getLogin_run req' _ _ Hu Hup').
        cbn [get String.eqb Ascii.eqb Bool.eqb]. rewrite Hk, Hgone.
        reflexivity.
      * intro req'.
        unfold getUser, comma, try_catch, bind, pool_query.
        rewrite Hup'. reflexivity.
      * apply filter_nil_forall. exact Hgone.
      * rewrite (deleteUser_run req _ Hup'), Hk, Hgone. reflexivity.
Qed.

(** *** C3 *)

(** Without the variable, the key handed to the token library is empty. *)
Lemma absent_secret_key : secret P = VUndefined -> encode (secret P) = [].
Proof. intros ->. reflexivity. Qed.

(** Nothing in the controllers looks at the secret before using it:
    whether a token is then issued is the runtime's answer to an empty
    key. *)
Lemma sign_absent_secret (b : SignJWT) (w : world) :
  secret P = VUndefined ->
  sign P (encode (secret P)) b w =
  match hs256 P [] (signing_input P (_protectedHeader b) (_payload b)) with
  | Some s =>
      (inr (compact P (mkJws (_protectedHeader b) (_payload b) s)), w)
  | None => (inl (TypeError "the key cannot be used for HS256"), w)
  end.
Proof.
  intros ->. unfold sign. cbn [encode].
  destruct (hs256 P [] _); reflexivity.
Qed.

(** *** Store failures elsewhere *)

(** The other handlers that reach the store answer its failure with 500. *)
Lemma store_failure_500 (req : request) (w : world) :
  db_down w = true ->
  fst (getUser P validateUser req w) =
    inr (send 500 (VStr "Error retrieving users")) /\
  fst (deleteUser P validateUser req w) =
    inr (send 500 (VStr "Error al eliminar el usuario")) /\
  (missing "email" (body req) = false ->
   missing "password" (body req) = false ->
   fst (login P validateUser req w) =
     inr (send 500 (VStr "Error al iniciar sesión"))).
Proof.
  intro Hd. repeat split.
  - unfold getUser, comma, try_catch, bind, pool_query. rewrite Hd.
    reflexivity.
  - unfold deleteUser, comma, try_catch, bind, pool_query. rewrite Hd.
    reflexivity.
  - intros He Hp. rewrite (login_store_down req w He Hp Hd). reflexivity.
Qed.

(** ** Beyond the claims: what every request gets *)

(** X1: no exception leaves a try block.  Listing and deleting answer
    every request, in every state, with their own status codes.  Creating,
    logging in and updating read the body before their try block: with no
    parsed body they throw a TypeError, answer nothing and leave the state
    alone; with a body they answer every request, with their own status
    codes. *)
Theorem handlers_answer_or_throw (req : request) (w : world) :
  answers_with [200; 500] (getUser P validateUser req w) = true /\
  answers_with [200; 404; 500] (deleteUser P validateUser req w) = true /\
  if nullish (body req) then
    createUser P validateUser req w =
      (inl (TypeError "Cannot destructure property name"), w) /\
    login P validateUser req w =
      (inl (TypeError "Cannot destructure property email"), w) /\
    actualizateUser P validateUser req w =
      (inl (TypeError "Cannot destructure property name"), w)
  else
    answers_with [201; 500] (createUser P validateUser req w) = true /\
    answers_with [200; 400; 401; 500] (login P validateUser req w) = true /\
    answers_with [200; 401; 404; 500]
                 (actualizateUser P validateUser req w) = true.
Proof.
  unfold answers_with. open_handlers.
  split; [walk; reflexivity|]. split; [walk; reflexivity|].
  destruct (nullish (body req)); cbv iota;
    (split; [|split]); walk; reflexivity.
Qed.

(** X2: get self reads the claim off [req.user] before its try block: with
    [req.user] undefined or null it throws a TypeError, answers nothing and
    leaves the state alone; otherwise it answers, with 200 or 401 only. *)
Theorem getLogin_answers_or_throws (req : request) (w : world) :
  match user req with
  | VUndefined | VNull =>
      getLogin P validateUser req w =
      (inl (TypeError "Cannot destructure property id_users"), w)
  | _ => answers_with [200; 401] (getLogin P validateUser req w) = true
  end.
Proof.
  unfold answers_with. open_handlers.
  destruct (user req); walk; reflexivity.
Qed.

(** X3: listing, logging in and get self never write: whatever the request
    and the state, the table, its sequence and the hasher's entropy are
    afterwards what they were. *)
Theorem readers_leave_table (req : request) (w : world) :
  (same_table w (snd (getUser P validateUser req w)) /\
   entropy (snd (getUser P validateUser req w)) = entropy w) /\
  (same_table w (snd (login P validateUser req w)) /\
   entropy (snd (login P validateUser req w)) = entropy w) /\
  (same_table w (snd (getLogin P validateUser req w)) /\
   entropy (snd (getLogin P validateUser req w)) = entropy w).
Proof.
  unfold same_table. open_handlers.
  repeat split; walk; reflexivity.
Qed.

(** X4: what a failure shows.  When one of the five handlers answers 500,
    the body is that handler's fixed message, whatever the error was, and
    the error was written to the console; when it answers anything else,
    nothing was written. *)
Theorem failures_are_logged_not_sent (req : request) (w : world) :
  failure_is "Error retrieving users" w (getUser P validateUser req w) /\
  failure_is "Error creating user" w (createUser P validateUser req w) /\
  failure_is "Error al iniciar sesión" w (login P validateUser req w) /\
  failure_is "Error al eliminar el usuario" w
             (deleteUser P validateUser req w) /\
  failure_is "Error al actualizar el usuario" w
             (actualizateUser P validateUser req w).
Proof.
  unfold failure_is. open_handlers.
  repeat split; walk; try reflexivity; try exact I;
    (split; [reflexivity | eexists; reflexivity]).
Qed.

(** X5: the answers of login, get self and update never carry the
    password column, whatever the request and the state. *)
Theorem login_self_update_hide_password (req : request) (w : world) :
  leaks (login P validateUser req w) = false /\
  leaks (getLogin P validateUser req w) = false /\
  leaks (actualizateUser P validateUser req w) = false.
Proof.
  split; [|split].
  - unfold leaks. open_handlers. walk; reflexivity.
  - apply getLogin_hides_password.
  - apply actualizateUser_hides_password.
Qed.

(** ** Beyond the claims: registration *)

(** What a registration with a string password does, the store answering. *)
Lemma createUser_run (req : request) (w : world) (p : string) :
  prop (body req) "password" = VStr p ->
  db_down w = false ->
  createUser P validateUser req w =
  (inr (send 201 (VObj (row_obj
          (mkRow (next_id w) (pg_text P (prop (body req) "name"))
                 (pg_text P (prop (body req) "email"))
                 (Some (bcrypt_digest P p 10 (entropy w))))))),
   mkWorld (rows w ++ [mkRow (next_id w)
                             (pg_text P (prop (body req) "name"))
                             (pg_text P (prop (body req) "email"))
                             (Some (bcrypt_digest P p 10 (entropy w)))])
           (next_id w + 1) (db_down w) (now w)
           (N.succ (entropy w)) (console w)).
Proof.
  intros Hp Hup. pose proof (string_parsed _ _ _ Hp) as Hb.
  unfold createUser, comma, destructure. rewrite Hb. cbv iota.
  repeat (rewrite bind_ret; cbv beta). rewrite Hp.
  unfold try_catch, bind, bcrypt_hash, pool_query. cbn [db_down].
  rewrite Hup. reflexivity.
Qed.


(** X7: a registration whose password is missing or not a string is
    answered 500 "Error creating user": the hasher rejects it before the
    store is asked, so no row is inserted and no entropy is drawn. *)
Theorem createUser_needs_string_password (req : request) (w : world) :
  nullish (body req) = false ->
  (forall p, prop (body req) "password" <> VStr p) ->
  exists e,
    createUser P validateUser req w =
    (inr (send 500 (VStr "Error creating user")),
     mkWorld (rows w) (next_id w) (db_down w) (now w) (entropy w)
             (BcryptError e :: console w)).
Proof.
  intros Hb Hp. unfold createUser, comma, destructure. rewrite Hb. cbv iota.
  repeat (rewrite bind_ret; cbv beta).
  unfold try_catch, bind, bcrypt_hash.
  destruct (prop (body req) "password") as [| |b|n|p|o|l];
    try (eexists; reflexivity).
  exfalso. exact (Hp p eq_refl).
Qed.

(** X8: register, then log in.  If no row had the e-mail before, a login
    with the credentials just registered finds the new row, verifies the
    password against the digest stored for it whenever the hasher accepts
    its own digest, and is answered 200 with a token for the new
    identifier. *)
Theorem create_then_login (req : request) (w : world) (e p s : string) :
  prop (body req) "email" = VStr e -> e <> "" ->
  prop (body req) "password" = VStr p -> p <> "" ->
  db_down w = false ->
  filter (has_email P (VStr e)) (rows w) = [] ->
  bcrypt_check P p (bcrypt_digest P p 10 (entropy w)) = true ->
  let u := mkRow (next_id w) (pg_text P (prop (body req) "name")) (Some e)
                 (Some (bcrypt_digest P p 10 (entropy w))) in
  let w1 := snd (createUser P validateUser req w) in
  hs256 P (encode (secret P))
        (signing_input P login_header (login_claims u (now w))) = Some s ->
  login P validateUser req w1 =
  (inr (send 200 (VObj [("jwt",
          VStr (compact P (mkJws login_header (login_claims u (now w)) s)))])),
   w1).
Proof.
  intros He Hne Hp Hpne Hup Hnew Hcheck u w1 Hs.
  assert (Hw1 : w1 = mkWorld (rows w ++ [u]) (next_id w + 1) (db_down w)
                             (now w) (N.succ (entropy w)) (console w)).
  { unfold w1. rewrite (createUser_run req w p Hp Hup).
    cbn [snd]. unfold u. rewrite He. reflexivity. }
  assert (Hrows : filter (has_email P (prop (body req) "email")) (rows w1)
                  = u :: []).
  { rewrite Hw1, He. cbn [rows]. rewrite filter_app, Hnew.
    cbn [filter app]. unfold has_email. cbn [pg_text col_email u].
    rewrite String.eqb_refl. reflexivity. }
  assert (Hm : missing "email" (body req) = false).
  { unfold missing. rewrite He, (truthy_string e Hne). reflexivity. }
  assert (Hup1 : db_down w1 = false) by (rewrite Hw1; exact Hup).
  rewrite (login_found req w1 u [] p (bcrypt_digest P p 10 (entropy w))
                       Hm Hup1 Hrows Hp Hpne eq_refl).
  rewrite Hcheck.
  assert (Hnow : now w1 = now w) by (rewrite Hw1; reflexivity).
  rewrite Hnow, Hs. reflexivity.
Qed.


(** ** Beyond the claims: deletion, update, get self *)

(** X10: a delete whose path id is the decimal form of [n].  When [n]
    fits the identifier column it removes the rows with identifier [n] and
    keeps every other row, in order, the sequence untouched; when it does
    not, the store rejects the statement and the answer is 500. *)
Theorem deleteUser_removes_exactly (req : request) (w : world) (n : Z) :
  get "id" (params req) = VStr (decimal n) ->
  db_down w = false ->
  (in_int4 n = true ->
   rows (snd (deleteUser P validateUser req w)) =
     filter (fun u => negb (col_id_users u =? n)) (rows w) /\
   next_id (snd (deleteUser P validateUser req w)) = next_id w) /\
  (in_int4 n = false ->
   deleteUser P validateUser req w =
   (inr (send 500 (VStr "Error al eliminar el usuario")),
    logged StoreError w)).
Proof.
  intros Hid Hup.
  rewrite (deleteUser_run req w Hup), Hid, pg_int4_decimal.
  split; intros Hr; rewrite Hr; [|reflexivity].
  destruct (filter (id_is (Some n)) (rows w)) as [|u rest] eqn:Hf;
    cbn [snd with_table rows next_id]; split; try reflexivity.
  symmetry. exact (filter_nil_all _ _ Hf).
Qed.

(** X11: deleting twice, the store answering.  When the store reads the
    path id, the same request again is answered 404 and changes nothing,
    whatever the first one answered; when it cannot read the path id, both
    are answered 500 and the table is never touched. *)
Theorem deleteUser_twice (req : request) (w : world) :
  db_down w = false ->
  let w1 := snd (deleteUser P validateUser req w) in
  match pg_int4 (get "id" (params req)) with
  | inr _ =>
      deleteUser P validateUser req w1 =
      (inr (send 404 (VStr "Usuario no encontrado")), w1)
  | inl e =>
      deleteUser P validateUser req w =
        (inr (send 500 (VStr "Error al eliminar el usuario")), logged e w) /\
      deleteUser P validateUser req w1 =
        (inr (send 500 (VStr "Error al eliminar el usuario")), logged e w1)
  end.
Proof.
  intros Hup w1. unfold w1. rewrite (deleteUser_run req w Hup).
  destruct (pg_int4 (get "id" (params req))) as [e|k] eqn:Hk.
  - cbn [snd]. split; [reflexivity|].
    assert (Hup' : db_down (logged e w) = false) by exact Hup.
    rewrite (deleteUser_run req _ Hup'), Hk. reflexivity.
  - destruct (filter (id_is k) (rows w)) as [|u rest] eqn:Hf; cbn [snd].
    + rewrite (deleteUser_run req w Hup), Hk, Hf. reflexivity.
    + assert (Hup' : db_down (with_table
                                (filter (fun x => negb (id_is k x)) (rows w))
                                (next_id w) w) = false) by exact Hup.
      rewrite (deleteUser_run req _ Hup'), Hk.
      cbn [with_table rows]. rewrite filter_of_rest. reflexivity.
Qed.

(** What an update with all fields does, the store answering. *)
Lemma actualizateUser_run (req : request) (w : world) (p : string) :
  missing "name" (body req) = false ->
  missing "email" (body req) = false ->
  prop (body req) "password" = VStr p -> p <> "" ->
  db_down w = false ->
  let h := Some (bcrypt_digest P p 10 (entropy w)) in
  let hashed := mkWorld (rows w) (next_id w) (db_down w) (now w)
                        (N.succ (entropy w)) (console w) in
  actualizateUser P validateUser req w =
  match pg_int4 (get "id" (params req)) with
  | inl e =>
      (inr (send 500 (VStr "Error al actualizar el usuario")),
       logged e hashed)
  | inr k =>
      let f := updated (pg_text P (prop (body req) "name"))
                       (pg_text P (prop (body req) "email")) h k in
      match filter (id_is k) (rows w) with
      | [] =>
          (inr (send 404 (VStr "Usuario no encontrado")),
           with_table (map f (rows w)) (next_id w) hashed)
      | u :: _ =>
          (inr (send 200
                  (VObj [("id_users", VNum (col_id_users u));
                         ("name",
                          column (pg_text P (prop (body req) "name")));
                         ("email",
                          column (pg_text P (prop (body req) "email")))])),
           with_table (map f (rows w)) (next_id w) hashed)
      end
  end.
Proof.
  intros Hn He Hp Hne Hup h hashed. subst h hashed.
  pose proof (present_parsed _ _ Hn) as Hb.
  unfold missing in Hn, He.
  apply negb_false_iff in Hn. apply negb_false_iff in He.
  unfold actualizateUser, comma, destructure. rewrite Hb. cbv iota.
  repeat (rewrite bind_ret; cbv beta).
  rewrite Hn, He, Hp, (truthy_string p Hne). cbn [negb orb].
  unfold try_catch, bind, bcrypt_hash, pool_query. cbn [db_down rows].
  rewrite Hup.
  destruct (pg_int4 (get "id" (params req))) as [e|k]; [reflexivity|].
  cbn [pg_text].
  destruct (filter (id_is k) (rows w)) as [|u rest] eqn:Hf;
    cbn [map ret]; [reflexivity|].
  unfold updated at 1. rewrite (filter_head _ _ _ _ Hf). reflexivity.
Qed.


(** X13: an update with all fields whose path id finds no row.  When the
    store reads the path id and no row has that identifier the answer is
    404 and the table is as it was; when it cannot read the path id the
    answer is 500 and the table is as it was.  Either way the new password
    has been hashed, before the store was asked. *)
Theorem actualizateUser_unknown_id (req : request) (w : world) (p : string) :
  missing "name" (body req) = false ->
  missing "email" (body req) = false ->
  prop (body req) "password" = VStr p -> p <> "" ->
  db_down w = false ->
  (forall k,
     pg_int4 (get "id" (params req)) = inr k ->
     filter (id_is k) (rows w) = [] ->
     actualizateUser P validateUser req w =
     (inr (send 404 (VStr "Usuario no encontrado")),
      mkWorld (rows w) (next_id w) (db_down w) (now w)
              (N.succ (entropy w)) (console w))) /\
  (forall e,
     pg_int4 (get "id" (params req)) = inl e ->
     actualizateUser P validateUser req w =
     (inr (send 500 (VStr "Error al actualizar el usuario")),
      mkWorld (rows w) (next_id w) (db_down w) (now w)
              (N.succ (entropy w)) (e :: console w))).
Proof.
  intros Hn He Hp Hne Hup. split.
  - intros k Hk Hf.
    rewrite (actualizateUser_run req w p Hn He Hp Hne Hup). rewrite Hk, Hf.
    cbv zeta. rewrite (map_updated_none _ _ _ _ _ Hf). reflexivity.
  - intros e Hk.
    rewrite (actualizateUser_run req w p Hn He Hp Hne Hup). rewrite Hk.
    reflexivity.
Qed.

(** X14: get self with a claim in decimal, the store answering.  When the
    number fits the identifier column the answer is 200 with identifier,
    name and e-mail of the first row with that identifier, without the
    password, and nothing changes; when it does not, the store rejects the
    statement and the catch block answers 401 "Token inválido o
    expirado". *)
Theorem getLogin_returns_self (req : request) (w : world) (c : obj) (n : Z)
        (u : user_row) (rest : list user_row) :
  user req = VObj c ->
  get "id_users" c = VStr (decimal n) ->
  db_down w = false ->
  filter (fun u => col_id_users u =? n) (rows w) = u :: rest ->
  (in_int4 n = true ->
   getLogin P validateUser req w =
   (inr (send 200 (VObj (public_obj u))), w)) /\
  (in_int4 n = false ->
   getLogin P validateUser req w =
   (inr (send 401 (VStr "Token inválido o expirado")), logged StoreError w)).
Proof.
  intros Hu Hc Hup Hf.
  rewrite (getLogin_run req w c Hu Hup), Hc, pg_int4_decimal.
  split; intro Hr; rewrite Hr; [|reflexivity].
  change (filter (id_is (Some n)) (rows w))
    with (filter (fun u => col_id_users u =? n) (rows w)).
  rewrite Hf. reflexivity.
Qed.

(** X15: every handler keeps the table's invariant: if no two rows share
    an identifier and the sequence is ahead of them all before a request,
    the same holds after it, whatever the request and its outcome. *)
Theorem handlers_keep_table_ok (req : request) (w : world) :
  table_ok w ->
  table_ok (snd (getUser P validateUser req w)) /\
  table_ok (snd (createUser P validateUser req w)) /\
  table_ok (snd (login P validateUser req w)) /\
  table_ok (snd (getLogin P validateUser req w)) /\
  table_ok (snd (deleteUser P validateUser req w)) /\
  table_ok (snd (actualizateUser P validateUser req w)).
Proof.
  intro Hok.
  assert (Hins := fun n e p => table_ok_insert w n e p Hok).
  assert (Hdel := fun q => table_ok_delete w q Hok).
  assert (Hupd := fun n e p k => table_ok_update w n e p k Hok).
  open_handlers.
  split; [|split; [|split; [|split; [|split]]]];
    repeat first
      [ progress cbn -[decimal encode pg_int4 pg_text has_email id_is
                       updated with_table table_ok]
      | match goal with
        | |- context [match ?x with _ => _ end] =>
            lazymatch x with
            | context [match _ with _ => _ end] => fail
            | _ => destruct x eqn:?
            end
        end ];
    first [ exact Hok
          | apply (table_ok_same w); [reflexivity | reflexivity | exact Hok]
          | eapply table_ok_same; [ | | apply Hins]; reflexivity
          | eapply table_ok_same; [ | | apply Hdel]; reflexivity
          | eapply table_ok_same; [ | | apply Hupd]; reflexivity ].
Qed.

(** ** Beyond the claims: the token guard and the store's failures *)



(** X18: the two handlers that hash before they write answer a store
    failure with 500 and their own message; the table is as it was, the
    failure is on the console, and the hasher has already drawn its
    entropy. *)
Theorem writes_answer_store_failure (req : request) (w : world) (p : string) :
  prop (body req) "password" = VStr p ->
  db_down w = true ->
  createUser P validateUser req w =
    (inr (send 500 (VStr "Error creating user")),
     mkWorld (rows w) (next_id w) (db_down w) (now w) (N.succ (entropy w))
             (StoreError :: console w)) /\
  (missing "name" (body req) = false ->
   missing "email" (body req) = false ->
   p <> "" ->
   actualizateUser P validateUser req w =
     (inr (send 500 (VStr "Error al actualizar el usuario")),
      mkWorld (rows w) (next_id w) (db_down w) (now w) (N.succ (entropy w))
              (StoreError :: console w))).
Proof.
  intros Hp Hd. pose proof (string_parsed _ _ _ Hp) as Hb. split.
  - unfold createUser, comma, destructure. rewrite Hb. cbv iota.
    repeat (rewrite bind_ret; cbv beta). rewrite Hp.
    unfold try_catch, bind, bcrypt_hash, pool_query, console_error, ret.
    cbn [db_down]. rewrite Hd. reflexivity.
  - unfold missing. intros Hn He Hne.
    apply negb_false_iff in Hn. apply negb_false_iff in He.
    unfold actualizateUser, comma, destructure. rewrite Hb. cbv iota.
    repeat (rewrite bind_ret; cbv beta).
    rewrite Hn, He, Hp, (truthy_string p Hne). cbn [negb orb].
    unfold try_catch, bind, bcrypt_hash, pool_query, console_error, ret.
    cbn [db_down]. rewrite Hd. reflexivity.
Qed.

(** ** Beyond the claims: missing keys, dropped guards, single rows *)

(** X19: get self for claims that find no row, the store answering.  When
    the store reads the claimed id and no row has it, or the claims carry
    no id at all, the answer is 401 "Usuario no encontrado", not 404, and
    nothing changes.  When the store cannot read the claimed id (it is no
    number, or out of the column's range) the statement fails and the
    catch block answers 401 "Token inválido o expirado". *)
Theorem getLogin_unknown_claim (req : request) (w : world) (c : obj) :
  user req = VObj c ->
  db_down w = false ->
  (has_own "id_users" c = false \/
   (exists k, pg_int4 (get "id_users" c) = inr k /\
              filter (id_is k) (rows w) = []) ->
   getLogin P validateUser req w =
   (inr (send 401 (VStr "Usuario no encontrado")), w)) /\
  (forall e,
     pg_int4 (get "id_users" c) = inl e ->
     getLogin P validateUser req w =
     (inr (send 401 (VStr "Token inválido o expirado")), logged e w)).
Proof.
  intros Hu Hup. rewrite (getLogin_run req w c Hu Hup). split.
  - intros [Habs | [k [Hk Hf]]].
    + rewrite (absent_get _ _ Habs). cbn [pg_int4].
      rewrite filter_id_null. reflexivity.
    + rewrite Hk, Hf. reflexivity.
  - intros e He. rewrite He. reflexivity.
Qed.

(** X20: a delete request without a path id is answered 404 and deletes
    nothing: an absent parameter is bound as NULL, which equals no
    identifier. *)
Theorem deleteUser_without_id (req : request) (w : world) :
  has_own "id" (params req) = false ->
  db_down w = false ->
  deleteUser P validateUser req w =
  (inr (send 404 (VStr "Usuario no encontrado")), w).
Proof.
  intros Habs Hup.
  rewrite (deleteUser_run req w Hup), (absent_get _ _ Habs).
  cbn [pg_int4]. rewrite filter_id_null. reflexivity.
Qed.

(** X21: the guards listed with a handler play no part in it.  Each of the
    six exports gives the same outcome whatever [validateUser] is and
    whatever headers the request carries, the authorization header
    included. *)
Theorem guards_are_dropped (validateUser' : middleware) (req : request)
        (hs : obj) (w : world) :
  let req' := mkReq hs (params req) (body req) (user req) in
  getUser P validateUser' req' w = getUser P validateUser req w /\
  createUser P validateUser' req' w = createUser P validateUser req w /\
  login P validateUser' req' w = login P validateUser req w /\
  getLogin P validateUser' req' w = getLogin P validateUser req w /\
  deleteUser P validateUser' req' w = deleteUser P validateUser req w /\
  actualizateUser P validateUser' req' w =
    actualizateUser P validateUser req w.
Proof.
  intro req'. unfold getUser, createUser, login, getLogin, deleteUser,
                actualizateUser, comma.
  repeat split; reflexivity.
Qed.

(** X22: on a table whose identifiers are apart, deleting by the decimal
    identifier of a row.  When the identifier fits the column the answer
    is 200 with that very row, which is removed and no other: the table is
    one row shorter and no longer holds a row with that identifier.  When
    it does not fit, the store rejects the statement and the answer is
    500. *)
Theorem deleteUser_removes_one_row (req : request) (w : world)
        (u : user_row) :
  table_ok w ->
  In u (rows w) ->
  get "id" (params req) = VStr (decimal (col_id_users u)) ->
  db_down w = false ->
  let out := deleteUser P validateUser req w in
  (in_int4 (col_id_users u) = true ->
   fst out = inr (send 200 (VObj (row_obj u))) /\
   (List.length (rows (snd out)) + 1)%nat = List.length (rows w) /\
   ~ In (col_id_users u) (ids (snd out)) /\
   (forall u', In u' (rows w) -> col_id_users u' <> col_id_users u ->
               In u' (rows (snd out)))) /\
  (in_int4 (col_id_users u) = false ->
   out = (inr (send 500 (VStr "Error al eliminar el usuario")),
          logged StoreError w)).
Proof.
  intros [Hnd _] Hin Hid Hup out. unfold out.
  rewrite (deleteUser_run req w Hup), Hid, pg_int4_decimal.
  split; intro Hr; rewrite Hr; [|reflexivity].
  pose proof (filter_own_id (rows w) u Hnd Hin) as Hone. rewrite Hone.
  cbn [fst snd with_table rows]. unfold ids. cbn [rows].
  split; [reflexivity|]. split; [|split].
  - pose proof (filter_split_length (id_is (Some (col_id_users u))) (rows w))
      as Hlen.
    rewrite Hone in Hlen. cbn [List.length] in Hlen. lia.
  - intro Hmem. apply in_map_iff in Hmem as [x [Hx Hfx]].
    apply filter_In in Hfx as [_ Hfx]. cbn [id_is] in Hfx.
    apply negb_true_iff, Z.eqb_neq in Hfx. exact (Hfx Hx).
  - intros u' Hin' Hne. apply filter_In. split; [exact Hin'|].
    cbn [id_is]. apply negb_true_iff, Z.eqb_neq. exact Hne.
Qed.

End Properties.

(** * The theorems at work on the small platform *)

Lemma world0_table_ok : table_ok Demo.world0.
Proof.
  split.
  - repeat constructor. intros [].
  - repeat constructor.
Defined.

Lemma actualizateUser_missing_field_witness :
  missing "email" (body Demo.update_no_email) = true /\
  actualizateUser (Demo.plat (VStr "k")) Demo.validate
                  Demo.update_no_email Demo.world0 =
  (inr (send 401 (VStr "Faltan datos")), Demo.world0).
Proof.
  split; [reflexivity|].
  apply actualizateUser_missing_field; [reflexivity|].
  right; left; reflexivity.
Defined.

(** The claim's four outcomes, and the two it leaves out. *)
Lemma login_outcomes_witness :
  let P := Demo.plat (VStr "k") in
  login P Demo.validate Demo.login_no_password Demo.world0 =
    (inr (send 400 (VStr "Email y contraseña son requeridos")), Demo.world0) /\
  login P Demo.validate Demo.login_nobody Demo.world0 =
    (inr (send 401 (VStr "Email inválido")), Demo.world0) /\
  login P Demo.validate (Demo.login_ana "pw9") Demo.world0 =
    (inr (send 401 (VStr "Contraseña inválida")), Demo.world0) /\
  login P Demo.validate (Demo.login_ana "pw1") Demo.world0 =
    (inr (send 200 (VObj [("jwt", VStr (Demo.serialize Demo.ana_jws))])),
     Demo.world0) /\
  login P Demo.validate Demo.no_body Demo.world0 =
    (inl (TypeError "Cannot destructure property email"), Demo.world0) /\
  exists msg,
    login P Demo.validate Demo.login_ana_123 Demo.world0 =
    (inr (send 500 (VStr "Error al iniciar sesión")),
     logged (BcryptError msg) Demo.world0).
Proof.
  intro P. split; [|split; [|split; [|split; [|split]]]].
  - destruct (login_outcomes P Demo.validate Demo.login_no_password
                             Demo.world0) as (_ & B & _).
    apply B; [reflexivity | right; reflexivity].
  - destruct (login_outcomes P Demo.validate Demo.login_nobody Demo.world0)
      as (_ & _ & C).
    destruct (C eq_refl eq_refl) as (_ & D).
    destruct (D eq_refl) as (E & _).
    apply E. reflexivity.
  - destruct (login_outcomes P Demo.validate (Demo.login_ana "pw9")
                             Demo.world0) as (_ & _ & C).
    destruct (C eq_refl eq_refl) as (_ & D).
    destruct (D eq_refl) as (_ & E).
    destruct (E Demo.ana [] eq_refl) as (F & _).
    destruct (F "pw9" (Demo.digest "pw1" 10 0) eq_refl eq_refl) as (G & _).
    apply G. reflexivity.
  - destruct (login_outcomes P Demo.validate (Demo.login_ana "pw1")
                             Demo.world0) as (_ & _ & C).
    destruct (C eq_refl eq_refl) as (_ & D).
    destruct (D eq_refl) as (_ & E).
    destruct (E Demo.ana [] eq_refl) as (F & _).
    destruct (F "pw1" (Demo.digest "pw1" 10 0) eq_refl eq_refl) as (_ & G).
    destruct (G eq_refl) as (H & _).
    apply (H ("k/" ++ Demo.input login_header (login_claims Demo.ana 1000))).
    reflexivity.
  - destruct (login_outcomes P Demo.validate Demo.no_body Demo.world0)
      as (A & _).
    apply A. reflexivity.
  - destruct (login_outcomes P Demo.validate Demo.login_ana_123 Demo.world0)
      as (_ & _ & C).
    destruct (C eq_refl eq_refl) as (_ & D).
    destruct (D eq_refl) as (_ & E).
    destruct (E Demo.ana [] eq_refl) as (_ & F).
    apply F. left. intros p H. discriminate H.
Defined.

(** The claim fails where the password is not a string: the e-mail is
    Ana's, the password 123 does not verify, and the answer is 500, not
    401. *)
Lemma login_numeric_password :
  filter (has_email (Demo.plat (VStr "k")) (VStr "ana@x.com"))
         (rows Demo.world0) = [Demo.ana] /\
  fst (login (Demo.plat (VStr "k")) Demo.validate Demo.login_ana_123
             Demo.world0) =
    inr (send 500 (VStr "Error al iniciar sesión")) /\
  fst (login (Demo.plat (VStr "k")) Demo.validate Demo.login_ana_123
             Demo.world0) <>
    inr (send 401 (VStr "Contraseña inválida")).
Proof.
  split; [reflexivity|]. split; [reflexivity|].
  intro H. discriminate H.
Qed.

Lemma login_token_contents_witness :
  exists s,
    hs256 (Demo.plat (VStr "k")) (encode (VStr "k"))
          (Demo.input login_header (login_claims Demo.ana 1000)) = Some s /\
    fst (login (Demo.plat (VStr "k")) Demo.validate (Demo.login_ana "pw1")
               Demo.world0) =
    inr (send 200
           (VObj [("jwt", VStr (Demo.serialize
                                  (mkJws login_header
                                         (login_claims Demo.ana 1000) s)))])).
Proof.
  destruct (login_token_contents (Demo.plat (VStr "k")) Demo.validate
              (Demo.login_ana "pw1") Demo.world0 Demo.world0
              (send 200 (VObj [("jwt", VStr (Demo.serialize Demo.ana_jws))]))
              eq_refl eq_refl)
    as (u & rest & s & Hrows & _ & _ & _ & Hs & Hsent & _).
  injection Hrows as <- <-.
  exists s. split; [exact Hs|].
  cbn [sent send] in Hsent. injection Hsent as Hj.
  cbn [fst]. rewrite <- Hj. reflexivity.
Defined.

Lemma token_rejections_look_alike_witness :
  let P := Demo.plat (VStr "k") in
  let next : handler := fun req => ret (send 200 (user req)) in
  signed_by P (encode (secret P)) Demo.forged_jws = false /\
  within (now Demo.world_late) (claims Demo.ana_jws) = false /\
  fst (authenticateToken P (Demo.bearer (Demo.serialize Demo.forged_jws))
                         next Demo.world_late) =
  fst (authenticateToken P (Demo.bearer (Demo.serialize Demo.ana_jws))
                         next Demo.world_late).
Proof.
  intros P next. split; [reflexivity|]. split; [reflexivity|].
  apply (proj2 (proj2 (token_rejections_look_alike P next Demo.world_late))
               (Demo.bearer (Demo.serialize Demo.forged_jws))
               (Demo.bearer (Demo.serialize Demo.ana_jws))
               (Demo.serialize Demo.forged_jws)
               (Demo.serialize Demo.ana_jws)
               Demo.forged_jws Demo.ana_jws);
    try reflexivity; intro H; vm_compute in H; discriminate H.
Defined.

(** A path id nobody has, the path id "01", and the path id "abc". *)
Lemma deleteUser_outcomes_witness :
  let P := Demo.plat (VStr "k") in
  deleteUser P Demo.validate (Demo.delete_id "9") Demo.world0 =
    (inr (send 404 (VStr "Usuario no encontrado")), Demo.world0) /\
  (exists w',
     deleteUser P Demo.validate (Demo.delete_id "01") Demo.world0 =
       (inr (send 200 (VObj (row_obj Demo.ana))), w') /\
     getLogin P Demo.validate (Demo.self_id "01") w' =
       (inr (send 401 (VStr "Usuario no encontrado")), w') /\
     deleteUser P Demo.validate (Demo.delete_id "01") w' =
       (inr (send 404 (VStr "Usuario no encontrado")), w')) /\
  deleteUser P Demo.validate (Demo.delete_id "abc") Demo.world0 =
    (inr (send 500 (VStr "Error al eliminar el usuario")),
     logged StoreError Demo.world0).
Proof.
  intro P.
  split; [|split].
  - destruct (deleteUser_outcomes P Demo.validate (Demo.delete_id "9")
                                  Demo.world0 eq_refl) as (_ & B).
    destruct (B (Some 9) eq_refl) as (C & _).
    apply C. reflexivity.
  - destruct (deleteUser_outcomes P Demo.validate (Demo.delete_id "01")
                                  Demo.world0 eq_refl) as (_ & B).
    destruct (B (Some 1) eq_refl) as (_ & C).
    destruct (C Demo.ana [] eq_refl) as (w' & Hdel & Hself & _ & _ & Hagain).
    exists w'. split; [exact Hdel|]. split; [|exact Hagain].
    apply Hself. reflexivity.
  - destruct (deleteUser_outcomes P Demo.validate (Demo.delete_id "abc")
                                  Demo.world0 eq_refl) as (A & _).
    apply A. reflexivity.
Defined.

(** The claim fails where the path id is no number: no row has the id
    "abc", and the answer is 500, not 404. *)
Lemma deleteUser_non_numeric_id :
  existsb (fun u => String.eqb (decimal (col_id_users u)) "abc")
          (rows Demo.world0) = false /\
  deleteUser (Demo.plat (VStr "k")) Demo.validate (Demo.delete_id "abc")
             Demo.world0 =
    (inr (send 500 (VStr "Error al eliminar el usuario")),
     logged StoreError Demo.world0) /\
  fst (deleteUser (Demo.plat (VStr "k")) Demo.validate (Demo.delete_id "abc")
                  Demo.world0) <>
    inr (send 404 (VStr "Usuario no encontrado")).
Proof.
  split; [reflexivity|]. split; [reflexivity|].
  intro H. discriminate H.
Qed.


Lemma createUser_needs_string_password_witness :
  exists e,
    createUser (Demo.plat (VStr "k")) Demo.validate Demo.list_anon
               Demo.world0 =
    (inr (send 500 (VStr "Error creating user")),
     mkWorld [Demo.ana] 2 false 1000 1 [BcryptError e]).
Proof.
  apply (createUser_needs_string_password (Demo.plat (VStr "k"))
           Demo.validate Demo.list_anon Demo.world0); [reflexivity|].
  intros p H. discriminate H.
Defined.

Lemma create_then_login_witness :
  exists jwt,
    login (Demo.plat (VStr "k")) Demo.validate Demo.create_bea
          (snd (createUser (Demo.plat (VStr "k")) Demo.validate
                           Demo.create_bea Demo.world0)) =
    (inr (send 200 (VObj [("jwt", VStr jwt)])),
     snd (createUser (Demo.plat (VStr "k")) Demo.validate Demo.create_bea
                     Demo.world0)).
Proof.
  eexists.
  apply (create_then_login (Demo.plat (VStr "k")) Demo.validate
           Demo.create_bea Demo.world0 "bea@x.com" "pw2");
    try reflexivity; discriminate.
Defined.


Lemma deleteUser_removes_exactly_witness :
  rows (snd (deleteUser (Demo.plat (VStr "k")) Demo.validate
                        Demo.delete_anon Demo.world0)) = [] /\
  deleteUser (Demo.plat (VStr "k")) Demo.validate
             (Demo.delete_id "99999999999") Demo.world0 =
  (inr (send 500 (VStr "Error al eliminar el usuario")),
   logged StoreError Demo.world0).
Proof.
  split.
  - apply (proj1 (deleteUser_removes_exactly (Demo.plat (VStr "k"))
                    Demo.validate Demo.delete_anon Demo.world0 1
                    eq_refl eq_refl)).
    reflexivity.
  - apply (proj2 (deleteUser_removes_exactly (Demo.plat (VStr "k"))
                    Demo.validate (Demo.delete_id "99999999999") Demo.world0
                    99999999999 eq_refl eq_refl)).
    reflexivity.
Defined.

Lemma deleteUser_twice_witness :
  fst (deleteUser (Demo.plat (VStr "k")) Demo.validate Demo.delete_anon
                  (snd (deleteUser (Demo.plat (VStr "k")) Demo.validate
                                   Demo.delete_anon Demo.world0))) =
    inr (send 404 (VStr "Usuario no encontrado")) /\
  fst (deleteUser (Demo.plat (VStr "k")) Demo.validate (Demo.delete_id "abc")
                  (snd (deleteUser (Demo.plat (VStr "k")) Demo.validate
                                   (Demo.delete_id "abc") Demo.world0))) =
    inr (send 500 (VStr "Error al eliminar el usuario")).
Proof.
  split.
  - rewrite (deleteUser_twice (Demo.plat (VStr "k")) Demo.validate
               Demo.delete_anon Demo.world0 eq_refl).
    reflexivity.
  - rewrite (proj2 (deleteUser_twice (Demo.plat (VStr "k")) Demo.validate
                      (Demo.delete_id "abc") Demo.world0 eq_refl)).
    reflexivity.
Defined.


Lemma actualizateUser_unknown_id_witness :
  actualizateUser (Demo.plat (VStr "k")) Demo.validate Demo.update_nobody
                  Demo.world0 =
    (inr (send 404 (VStr "Usuario no encontrado")),
     mkWorld [Demo.ana] 2 false 1000 2 []) /\
  actualizateUser (Demo.plat (VStr "k")) Demo.validate (Demo.update_id "abc")
                  Demo.world0 =
    (inr (send 500 (VStr "Error al actualizar el usuario")),
     mkWorld [Demo.ana] 2 false 1000 2 [StoreError]).
Proof.
  split.
  - apply (proj1 (actualizateUser_unknown_id (Demo.plat (VStr "k"))
                    Demo.validate Demo.update_nobody Demo.world0 "pw3"
                    eq_refl eq_refl eq_refl ltac:(discriminate) eq_refl)
                 (Some 9));
      reflexivity.
  - apply (proj2 (actualizateUser_unknown_id (Demo.plat (VStr "k"))
                    Demo.validate (Demo.update_id "abc") Demo.world0 "pw3"
                    eq_refl eq_refl eq_refl ltac:(discriminate) eq_refl)
                 StoreError).
    reflexivity.
Defined.

Lemma getLogin_returns_self_witness :
  getLogin (Demo.plat (VStr "k")) Demo.validate Demo.self_ana Demo.world0 =
  (inr (send 200 (VObj [("id_users", VNum 1); ("name", VStr "Ana");
                        ("email", VStr "ana@x.com")])), Demo.world0).
Proof.
  apply (proj1 (getLogin_returns_self (Demo.plat (VStr "k")) Demo.validate
                  Demo.self_ana Demo.world0 [("id_users", VStr "1")] 1
                  Demo.ana [] eq_refl eq_refl eq_refl eq_refl)).
  reflexivity.
Defined.

Lemma handlers_keep_table_ok_witness :
  table_ok (snd (createUser (Demo.plat (VStr "k")) Demo.validate
                            Demo.create_bea Demo.world0)) /\
  table_ok (snd (deleteUser (Demo.plat (VStr "k")) Demo.validate
                            Demo.delete_anon Demo.world0)).
Proof.
  destruct (handlers_keep_table_ok (Demo.plat (VStr "k")) Demo.validate
              Demo.create_bea Demo.world0 world0_table_ok)
    as (_ & Hc & _).
  destruct (handlers_keep_table_ok (Demo.plat (VStr "k")) Demo.validate
              Demo.delete_anon Demo.world0 world0_table_ok)
    as (_ & _ & _ & _ & Hd & _).
  split; assumption.
Defined.


Lemma writes_answer_store_failure_witness :
  createUser (Demo.plat (VStr "k")) Demo.validate Demo.update_ana
             Demo.world_down =
    (inr (send 500 (VStr "Error creating user")),
     mkWorld [Demo.ana] 2 true 1000 2 [StoreError]) /\
  actualizateUser (Demo.plat (VStr "k")) Demo.validate Demo.update_ana
                  Demo.world_down =
    (inr (send 500 (VStr "Error al actualizar el usuario")),
     mkWorld [Demo.ana] 2 true 1000 2 [StoreError]).
Proof.
  destruct (writes_answer_store_failure (Demo.plat (VStr "k")) Demo.validate
              Demo.update_ana Demo.world_down "pw3" eq_refl eq_refl)
    as [Hc Hu].
  split; [exact Hc|].
  apply Hu; try reflexivity; discriminate.
Defined.

(** Claims for an id nobody has, and for one beyond the column's range. *)
Lemma getLogin_unknown_claim_witness :
  getLogin (Demo.plat (VStr "k")) Demo.validate Demo.self_nobody
           Demo.world0 =
    (inr (send 401 (VStr "Usuario no encontrado")), Demo.world0) /\
  getLogin (Demo.plat (VStr "k")) Demo.validate (Demo.self_id "99999999999")
           Demo.world0 =
    (inr (send 401 (VStr "Token inválido o expirado")),
     logged StoreError Demo.world0).
Proof.
  split.
  - apply (proj1 (getLogin_unknown_claim (Demo.plat (VStr "k"))
                    Demo.validate Demo.self_nobody Demo.world0
                    [("id_users", VStr "9")] eq_refl eq_refl)).
    right. exists (Some 9). split; reflexivity.
  - apply (proj2 (getLogin_unknown_claim (Demo.plat (VStr "k"))
                    Demo.validate (Demo.self_id "99999999999") Demo.world0
                    [("id_users", VStr "99999999999")] eq_refl eq_refl)).
    reflexivity.
Defined.

Lemma deleteUser_without_id_witness :
  deleteUser (Demo.plat (VStr "k")) Demo.validate Demo.list_anon
             Demo.world0 =
  (inr (send 404 (VStr "Usuario no encontrado")), Demo.world0).
Proof.
  apply (deleteUser_without_id (Demo.plat (VStr "k")) Demo.validate
           Demo.list_anon Demo.world0); reflexivity.
Defined.

Lemma deleteUser_removes_one_row_witness :
  fst (deleteUser (Demo.plat (VStr "k")) Demo.validate Demo.delete_anon
                  Demo.world0) =
    inr (send 200 (VObj (row_obj Demo.ana))) /\
  (List.length (rows (snd (deleteUser (Demo.plat (VStr "k")) Demo.validate
                                      Demo.delete_anon Demo.world0))) + 1)%nat
  = 1%nat.
Proof.
  destruct (proj1 (deleteUser_removes_one_row (Demo.plat (VStr "k"))
                     Demo.validate Demo.delete_anon Demo.world0 Demo.ana
                     world0_table_ok (or_introl eq_refl) eq_refl eq_refl)
                  eq_refl)
    as (Hfst & Hlen & _).
  split; [exact Hfst | exact Hlen].
Defined.
